(** * The XCM wallet: balance, fee and transfer resolution

    A shallow embedding of the [XcmWallet] class (the wallet orchestration
    layer) and of the collaborators it talks to.  Asynchronous methods are
    functions into a small monad that records, in order, every call made to
    an external collaborator and either returns a value or fails with the
    error that the promise was rejected with. *)

From Stdlib Require Import ZArith QArith Qround Lia.
From stdpp Require Import base strings list gmap.

Local Open Scope Z_scope.
Local Set Warnings "-register-all".

(** ** Data model *)

(** [CallType] of the builder package: the execution-mechanism tag of a built
    configuration.  The wallet only ever compares a tag against [Evm] and
    [Substrate]; its casts are not checked at run time, so a tag that is
    neither of the two is kept as [OtherCallType]. *)
Inductive CallType :=
| Evm
| Substrate
| OtherCallType (tag : string).

#[global] Instance CallType_eq_dec : EqDecision CallType.
Proof. solve_decision. Defined.

(** A chain-relative asset identifier ([ChainAssetId]). *)
Definition ChainAssetId := string.

Module Asset.
Record t := mk { key : string; originSymbol : string }.
End Asset.

(** [AssetAmount extends Asset]: the asset fields together with an amount in
    minor units and the decimals used for display. *)
Module AssetAmount.
Record t := mk { asset : Asset.t; amount : Z; decimals : nat }.

(** [AssetAmount.fromAsset(asset, { amount, decimals })]. *)
Definition fromAsset (a : Asset.t) (amount : Z) (decimals : nat) : t :=
  mk a amount decimals.
End AssetAmount.

(** The result of one balance resolver: [{ key, balance }]. *)
Module Balance.
Record t := mk { key : string; balance : Z }.
End Balance.

(** A built configuration ([ContractConfig], [SubstrateQueryConfig] or
    [ExtrinsicConfig]); the wallet inspects its [type] only. *)
Module CallConfig.
Record t := mk { type : CallType; module : string; func : string;
                 args : list string }.
End CallConfig.

(** [AnyChain]: the chain descriptor with the directory methods the wallet
    calls on it. *)
Module AnyChain.
Record t := mk {
  key : string;
  ws : string;
  getBalanceAssetId : Asset.t -> ChainAssetId;
  getAssetId : Asset.t -> ChainAssetId;
  getAssetPalletInstance : Asset.t -> option Z }.
End AnyChain.

(** Parameters handed to the [build] method of the route's builders. *)
Module BalanceParams.
Record t := mk { address : string; asset : ChainAssetId }.
End BalanceParams.

Module ExtrinsicParams.
Record t := mk {
  address : string;
  amount : Z;
  asset : ChainAssetId;
  destination : AnyChain.t;
  fee : Z;
  feeAsset : ChainAssetId;
  palletInstance : option Z;
  source : AnyChain.t }.
End ExtrinsicParams.

Module ContractParams.
Record t := mk {
  address : string;
  amount : Z;
  asset : ChainAssetId;
  destination : AnyChain.t;
  fee : Z;
  feeAsset : ChainAssetId }.
End ContractParams.

(** Clients.  [ApiPromise] is the chain client obtained for an endpoint,
    [EvmClient] wraps one configured viem chain. *)
Inductive ApiPromise := ApiAt (endpoint : string).

Record ViemChain := { id : Z; name : string }.

(** Besides the clients the wallet makes, a look-up in the object that holds
    them can come back with a property that every object inherits
    ([InheritedProperty]): a value that is there, but is no client. *)
Inductive EvmClient :=
| NewEvmClient (chain : ViemChain)
| InheritedProperty (name : string).

Inductive PublicClient := ProviderOf (client : EvmClient).

Definition getProvider (client : EvmClient) : PublicClient := ProviderOf client.

Module FeeParams.
Record t := mk { api : ApiPromise; asset : ChainAssetId }.
End FeeParams.

(** A builder is its [build] method. *)
Definition BalanceConfigBuilder := BalanceParams.t -> CallConfig.t.
Definition ExtrinsicConfigBuilder := ExtrinsicParams.t -> CallConfig.t.
Definition ContractConfigBuilder := ContractParams.t -> CallConfig.t.
Definition FeeConfigBuilder := FeeParams.t -> CallConfig.t.

(** [destinationFee.amount: number | FeeConfigBuilder].  A number is either
    finite or not ([NaN], the infinities). *)
Inductive FeeAmount :=
| FiniteNumber (n : Q)
| NonFiniteNumber
| DynamicFee (builder : FeeConfigBuilder).

Module FeeAssetConfig.
Record t := mk { asset : Asset.t; balance : BalanceConfigBuilder }.
End FeeAssetConfig.

Module DestinationFeeConfig.
Record t := mk { amount : FeeAmount; asset : Asset.t;
                 balance : BalanceConfigBuilder }.
End DestinationFeeConfig.

(** [AssetConfig]: the per-route configuration; [contract], [extrinsic] and
    [fee] are optional fields. *)
Module AssetConfig.
Record t := mk {
  asset : Asset.t;
  balance : BalanceConfigBuilder;
  contract : option ContractConfigBuilder;
  destinationFee : DestinationFeeConfig.t;
  extrinsic : option ExtrinsicConfigBuilder;
  fee : option FeeAssetConfig.t }.
End AssetConfig.

Module ChainTransferConfig.
Record t := mk { chain : AnyChain.t; config : AssetConfig.t }.
End ChainTransferConfig.

Module TransferConfig.
Record t := mk {
  asset : Asset.t;
  source : ChainTransferConfig.t;
  destination : ChainTransferConfig.t }.
End TransferConfig.

(** [ChainConfig.getAssetsConfigs()]. *)
Module ChainConfig.
Record t := mk { getAssetsConfigs : list AssetConfig.t }.
End ChainConfig.

(** Balance observables.  [merge] multiplexes its constituents. *)
Inductive Observable :=
| Erc20BalanceObservable (client : EvmClient) (config : CallConfig.t)
                         (asset : string)
| SubstrateBalanceObservable (api : ApiPromise) (config : CallConfig.t)
                             (asset : string)
| merge (sources : list Observable).

(** ** Errors *)

Inductive error :=
| Error (msg : string)
| TypeError (msg : string)
| Rejected (reason : string)
| InvalidAmountError.

Inductive result (A : Type) :=
| Ok (a : A)
| Err (e : error).
Arguments Ok {A} a.
Arguments Err {A} e.

(** ** Calls to collaborators *)

Inductive Event :=
| EvGetPolkadotApi (endpoint : string)
| EvFirstValueFrom (stream : Observable)
| EvPolkadotServiceCreate (chain : string)
| EvGetAssetDecimals (chain : string) (asset : Asset.t)
| EvExtrinsicBuild (params : ExtrinsicParams.t)
| EvContractBuild (params : ContractParams.t)
| EvXTokensGetFee (transfer : CallConfig.t) (amount : Z)
| EvPolkadotGetFee (address : string) (transfer : CallConfig.t)
| EvFeeConfigCall (feeConfig : CallConfig.t)
| EvConsoleLog (value : AssetAmount.t).

(** ** The monad of asynchronous wallet methods *)

Definition M (A : Type) : Type := (list Event * result A)%type.

Definition trace {A} (m : M A) : list Event := fst m.
Definition outcome {A} (m : M A) : result A := snd m.

#[global] Instance M_ret : MRet M := fun A a => ([], Ok a).

#[global] Instance M_bind : MBind M := fun A B f m =>
  match m with
  | (t, Ok a) => let '(t', r) := f a in ((t ++ t')%list, r)
  | (t, Err e) => (t, Err e)
  end.

Definition throw {A} (e : error) : M A := ([], Err e).

(** One awaited call to a collaborator: it is recorded and its result, or its
    rejection, comes back. *)
Definition call {A} (ev : Event) (r : result A) : M A := ([ev], r).

(** [Promise.all]: every promise has been started, so every one of them
    leaves its calls; the result is the list of values, or a rejection. *)
Fixpoint Promise_all {A} (ps : list (M A)) : M (list A) :=
  match ps with
  | [] => mret []
  | (t, r) :: ps' =>
      let '(t', rs) := Promise_all ps' in
      ((t ++ t')%list, match r with
                | Ok a => match rs with
                          | Ok l => Ok (a :: l)
                          | Err e => Err e
                          end
                | Err e => Err e
                end)
  end.

(** ** Decimal normalizer *)

(** Modelled from the spec: [convertDecimals] is imported from the utilities
    package and its body is not part of the sources; this follows section
    4.3 (Decimal Normalizer): a negative amount is rejected, a larger target
    precision multiplies by the power of ten, a smaller one divides by it
    truncating toward zero. *)
Definition convertDecimals (amount : Z) (fromDecimals toDecimals : nat)
  : result Z :=
  if amount <? 0 then Err InvalidAmountError
  else if (fromDecimals <? toDecimals)%nat
       then Ok (amount * 10 ^ Z.of_nat (toDecimals - fromDecimals))
  else if (toDecimals <? fromDecimals)%nat
       then Ok (amount ÷ 10 ^ Z.of_nat (fromDecimals - toDecimals))
  else Ok amount.

(** ** Collaborators of the wallet *)

(** [PolkadotService]: a chain client bound to its chain descriptor. *)
Module PolkadotService.
Record t := mk { api : ApiPromise; chain : AnyChain.t }.
End PolkadotService.

(** [IConfigService], seen through the one thing the wallet asks of it:
    [ConfigBuilder(service).assets().asset(a).source(s).destination(d).build()],
    which throws when no route is registered. *)
Module IConfigService.
Record t := mk {
  build : Asset.t -> AnyChain.t -> AnyChain.t -> result TransferConfig.t }.
End IConfigService.

(** Everything outside the class: chain and contract clients, the decimal
    lookup of the chain directory, the fee estimators and [toBigInt].  Each
    field is the answer the collaborator gives to one call. *)
Module World.
Record t := mk {
  getPolkadotApi : string -> result ApiPromise;
  firstValueFrom : Observable -> result Balance.t;
  create : AnyChain.t -> IConfigService.t -> result PolkadotService.t;
  getAssetDecimals : PolkadotService.t -> Asset.t -> result nat;
  getFee : PolkadotService.t -> string -> CallConfig.t -> result Z;
  xTokensGetFee : CallConfig.t -> PublicClient -> Z -> result Z;
  feeConfigCall : CallConfig.t -> result Z;
  toBigInt : Q -> nat -> Z }.
End World.

(** The fields of the class.  [evmCliets] and [evmChains] are objects used as
    maps from a chain key to its client and its viem chain. *)
Module XcmWallet.
Record t := mk {
  configService : IConfigService.t;
  evmCliets : gmap string EvmClient;
  evmChains : gmap string ViemChain }.

(** The constructor, with [initChains]: one client per configured chain. *)
Definition new (configService : IConfigService.t)
               (evmChains : gmap string ViemChain) : t :=
  mk configService (NewEvmClient <$> evmChains) evmChains.
End XcmWallet.

Module BalanceConfigEntry.
Record t := mk { key : string; config : CallConfig.t }.
End BalanceConfigEntry.

(** The property names that a plain object inherits from [Object.prototype];
    reading one of them from an object that has no property of its own
    under that name gives a function or an object, never [undefined]. *)
Definition inheritedKeys : list string :=
  ["constructor"; "__defineGetter__"; "__defineSetter__"; "hasOwnProperty";
   "__lookupGetter__"; "__lookupSetter__"; "isPrototypeOf";
   "propertyIsEnumerable"; "toString"; "valueOf"; "__proto__";
   "toLocaleString"].

(** The double quote character, for the messages that contain one. *)
Definition dquote : string := String (Ascii.ascii_of_nat 34) EmptyString.

(** ** The methods of [XcmWallet] *)

Section Wallet.
Context (w : World.t) (this : XcmWallet.t).

(** [this.evmCliets[chain.key]] reads a plain object: without a client of its
    own under the key, an inherited property name still finds a value, which
    passes the test [!client].  The message interpolates the chain object
    itself, which prints as [[object Object]]. *)
Definition getEvmClient (chain : AnyChain.t) : M EvmClient :=
  match XcmWallet.evmCliets this !! AnyChain.key chain with
  | Some client => mret client
  | None =>
      if decide (AnyChain.key chain ∈ inheritedKeys)
      then mret (InheritedProperty (AnyChain.key chain))
      else throw (Error ("No evm configuration found for "
                         +:+ dquote +:+ "[object Object]" +:+ dquote))
  end.

Definition getPolkadotApi (chain : AnyChain.t) : M ApiPromise :=
  call (EvGetPolkadotApi (AnyChain.ws chain))
       (World.getPolkadotApi w (AnyChain.ws chain)).

Definition getTransferConfig (srcChain dstChain : AnyChain.t)
                             (asset : Asset.t) : M TransferConfig.t :=
  ([], IConfigService.build (XcmWallet.configService this)
         asset srcChain dstChain).

Definition getErc20Balance (asset : Asset.t) (chain : AnyChain.t)
                           (config : CallConfig.t) : M Balance.t :=
  evmClient ← getEvmClient chain;
  let balanceStream :=
    Erc20BalanceObservable evmClient config (Asset.key asset) in
  call (EvFirstValueFrom balanceStream)
       (World.firstValueFrom w balanceStream).

Definition getSubstrateBalance (asset : Asset.t) (chain : AnyChain.t)
                               (config : CallConfig.t) : M Balance.t :=
  api ← getPolkadotApi chain;
  let balanceStream :=
    SubstrateBalanceObservable api config (Asset.key asset) in
  call (EvFirstValueFrom balanceStream)
       (World.firstValueFrom w balanceStream).

(** [PolkadotService.create(chain, this.configService)]. *)
Definition PolkadotService_create (chain : AnyChain.t)
  : M PolkadotService.t :=
  call (EvPolkadotServiceCreate (AnyChain.key chain))
       (World.create w chain (XcmWallet.configService this)).

(** [polkadot.getAssetDecimals(asset)]. *)
Definition getAssetDecimals (polkadot : PolkadotService.t)
                            (asset : Asset.t) : M nat :=
  call (EvGetAssetDecimals
          (AnyChain.key (PolkadotService.chain polkadot)) asset)
       (World.getAssetDecimals w polkadot asset).

(** Return source chain input asset balance. *)
Definition getBalance (address : string)
                      (transferConfig : TransferConfig.t)
  : M AssetAmount.t :=
  let source := TransferConfig.source transferConfig in
  let asset := TransferConfig.asset transferConfig in
  let chain := ChainTransferConfig.chain source in
  let assetId := AnyChain.getBalanceAssetId chain asset in
  let assetConfig := ChainTransferConfig.config source in
  let balanceConfig :=
    AssetConfig.balance assetConfig (BalanceParams.mk address assetId) in
  balance ←
    (if decide (CallConfig.type balanceConfig = Evm)
     then getErc20Balance asset chain balanceConfig
     else getSubstrateBalance asset chain balanceConfig);
  polkadot ← PolkadotService_create chain;
  decimals ← getAssetDecimals polkadot asset;
  mret (AssetAmount.fromAsset asset (Balance.balance balance) decimals).

(** Return source chain input asset fee balance. *)
Definition getFeeBalance (address : string)
                         (transferConfig : TransferConfig.t)
  : M AssetAmount.t :=
  let source := TransferConfig.source transferConfig in
  let asset := TransferConfig.asset transferConfig in
  let chain := ChainTransferConfig.chain source in
  let assetId := AnyChain.getBalanceAssetId chain asset in
  let assetConfig := ChainTransferConfig.config source in
  '(feeAsset, balance) ←
    match AssetConfig.fee assetConfig with
    | Some fee =>
        let balanceConfig :=
          FeeAssetConfig.balance fee (BalanceParams.mk address assetId) in
        balance ← getSubstrateBalance asset chain balanceConfig;
        mret (FeeAssetConfig.asset fee, balance)
    | None => mret (asset, Balance.mk (Asset.key asset) 0)
    end;
  polkadot ← PolkadotService_create chain;
  decimals ← getAssetDecimals polkadot feeAsset;
  mret (AssetAmount.fromAsset feeAsset (Balance.balance balance) decimals).

(** Return destination chain fee. *)
Definition getDestinationFee (transferConfig : TransferConfig.t)
  : M AssetAmount.t :=
  let source := TransferConfig.source transferConfig in
  let destination := TransferConfig.destination transferConfig in
  let config := ChainTransferConfig.config source in
  let amount :=
    DestinationFeeConfig.amount (AssetConfig.destinationFee config) in
  let asset :=
    DestinationFeeConfig.asset (AssetConfig.destinationFee config) in
  polkadot ← PolkadotService_create (ChainTransferConfig.chain destination);
  decimals ← getAssetDecimals polkadot asset;
  match amount with
  | FiniteNumber n =>
      mret (AssetAmount.fromAsset asset (World.toBigInt w n decimals)
                                  decimals)
  | NonFiniteNumber => throw (TypeError "amount.build is not a function")
  | DynamicFee builder =>
      let feeConfig :=
        builder (FeeParams.mk
                   (PolkadotService.api polkadot)
                   (AnyChain.getAssetId (PolkadotService.chain polkadot)
                                        asset)) in
      feeBalance ← call (EvFeeConfigCall feeConfig)
                        (World.feeConfigCall w feeConfig);
      mret (AssetAmount.fromAsset asset feeBalance decimals)
  end.

Definition buildTransfer (amount : Z) (dstAddress : string)
                         (dstFee : AssetAmount.t)
                         (transferConfig : TransferConfig.t)
  : M CallConfig.t :=
  let source := TransferConfig.source transferConfig in
  let destination := TransferConfig.destination transferConfig in
  let asset := TransferConfig.asset transferConfig in
  let config := ChainTransferConfig.config source in
  let srcChain := ChainTransferConfig.chain source in
  let assetId := AnyChain.getAssetId srcChain asset in
  let feeAssetId := AnyChain.getAssetId srcChain (AssetAmount.asset dstFee) in
  match AssetConfig.extrinsic config with
  | Some extrinsic =>
      let palletInstance := AnyChain.getAssetPalletInstance srcChain asset in
      let params :=
        ExtrinsicParams.mk dstAddress amount assetId
          (ChainTransferConfig.chain destination)
          (AssetAmount.amount dstFee) feeAssetId palletInstance srcChain in
      call (EvExtrinsicBuild params) (Ok (extrinsic params))
  | None =>
      match AssetConfig.contract config with
      | Some contract =>
          let params :=
            ContractParams.mk dstAddress amount assetId
              (ChainTransferConfig.chain destination)
              (AssetAmount.amount dstFee) feeAssetId in
          call (EvContractBuild params) (Ok (contract params))
      | None =>
          throw (Error "Either contract or extrinsic must be provided")
      end
  end.

(** Return source chain fee.  The client is read from [this.evmCliets]
    directly; a key without a client makes the call of [getProvider] a
    [TypeError] (also at an inherited property name, where what is found has
    no such method; only the text of the message differs there). *)
Definition getSourceFee (amount : Z) (srcAddress dstAddress : string)
                        (dstFee : AssetAmount.t)
                        (transferConfig : TransferConfig.t)
  : M AssetAmount.t :=
  let source := TransferConfig.source transferConfig in
  let srcChain := ChainTransferConfig.chain source in
  polkadot ← PolkadotService_create srcChain;
  decimals ← getAssetDecimals polkadot (AssetAmount.asset dstFee);
  transfer ← buildTransfer amount dstAddress dstFee transferConfig;
  fee ←
    (if decide (CallConfig.type transfer = Evm)
     then
       match XcmWallet.evmCliets this !! AnyChain.key srcChain with
       | Some evmClient =>
           fee ← call (EvXTokensGetFee transfer amount)
                      (World.xTokensGetFee w transfer
                                           (getProvider evmClient) amount);
           ([], convertDecimals fee 18 decimals)
       | None =>
           throw (TypeError
             "Cannot read properties of undefined (reading 'getProvider')")
       end
     else
       call (EvPolkadotGetFee srcAddress transfer)
            (World.getFee w polkadot srcAddress transfer));
  mret (AssetAmount.fromAsset (AssetAmount.asset dstFee) fee decimals).

Definition console_log (value : AssetAmount.t) : M unit :=
  call (EvConsoleLog value) (Ok tt).

(** The method has no [return] statement: its promise resolves to
    [undefined], here [tt]. *)
Definition getSourceData (srcAddr : string) (srcChain : AnyChain.t)
                         (dstAddr : string) (dstChain : AnyChain.t)
                         (asset : Asset.t) : M unit :=
  transferConfig ← getTransferConfig srcChain dstChain asset;
  balance ← getBalance srcAddr transferConfig;
  feeBalance ← getFeeBalance srcAddr transferConfig;
  destinationFee ← getDestinationFee transferConfig;
  _ ← console_log balance;
  _ ← console_log feeBalance;
  _ ← console_log destinationFee;
  sourceFee ← getSourceFee (AssetAmount.amount balance) srcAddr dstAddr
                           destinationFee transferConfig;
  _ ← console_log sourceFee;
  mret tt.

Definition getBalanceConfigs (srcAddr : string) (srcChain : AnyChain.t)
                             (srcChainConfig : ChainConfig.t)
  : list BalanceConfigEntry.t :=
  (fun assetConfig =>
     let asset := AssetConfig.asset assetConfig in
     let assetId := AnyChain.getBalanceAssetId srcChain asset in
     let config :=
       AssetConfig.balance assetConfig (BalanceParams.mk srcAddr assetId) in
     BalanceConfigEntry.mk (Asset.key asset) config)
  <$> ChainConfig.getAssetsConfigs srcChainConfig.

Definition subscribeErc20Balance (asset : string) (config : CallConfig.t)
                                 (chain : AnyChain.t) : M Observable :=
  evmClient ← getEvmClient chain;
  mret (Erc20BalanceObservable evmClient config asset).

Definition subscribeSubstrateBalance (asset : string)
                                     (config : CallConfig.t)
                                     (chain : AnyChain.t) : M Observable :=
  api ← getPolkadotApi chain;
  mret (SubstrateBalanceObservable api config asset).

Definition subscribeBalance (address : string) (chain : AnyChain.t)
                            (chainConfig : ChainConfig.t) : M Observable :=
  let configs := getBalanceConfigs address chain chainConfig in
  erc20Observables ←
    mapM (fun e => subscribeErc20Balance (BalanceConfigEntry.key e)
                     (BalanceConfigEntry.config e) chain)
         (filter (fun e => CallConfig.type (BalanceConfigEntry.config e)
                           = Evm) configs);
  let substrateObservables :=
    (fun e => subscribeSubstrateBalance (BalanceConfigEntry.key e)
                (BalanceConfigEntry.config e) chain)
    <$> filter (fun e => CallConfig.type (BalanceConfigEntry.config e)
                         = Substrate) configs in
  rest ← Promise_all substrateObservables;
  mret (merge (erc20Observables ++ rest)).

End Wallet.

(** ** Statement helpers *)

(** The source chain of a route and the balance configuration that
    [getBalance] builds for it. *)
Definition sourceChain (transferConfig : TransferConfig.t) : AnyChain.t :=
  ChainTransferConfig.chain (TransferConfig.source transferConfig).

Definition destinationChain (transferConfig : TransferConfig.t) : AnyChain.t :=
  ChainTransferConfig.chain (TransferConfig.destination transferConfig).

Definition sourceConfig (transferConfig : TransferConfig.t) : AssetConfig.t :=
  ChainTransferConfig.config (TransferConfig.source transferConfig).

Definition balanceParams (address : string)
                         (transferConfig : TransferConfig.t)
  : BalanceParams.t :=
  BalanceParams.mk address
    (AnyChain.getBalanceAssetId (sourceChain transferConfig)
                                (TransferConfig.asset transferConfig)).

Definition balanceConfig (address : string)
                         (transferConfig : TransferConfig.t) : CallConfig.t :=
  AssetConfig.balance (sourceConfig transferConfig)
                      (balanceParams address transferConfig).

(** The parameters [buildTransfer] passes to either builder. *)
Definition extrinsicParams (amount : Z) (dstAddress : string)
                           (dstFee : AssetAmount.t)
                           (transferConfig : TransferConfig.t)
  : ExtrinsicParams.t :=
  let srcChain := sourceChain transferConfig in
  let asset := TransferConfig.asset transferConfig in
  ExtrinsicParams.mk dstAddress amount (AnyChain.getAssetId srcChain asset)
    (destinationChain transferConfig) (AssetAmount.amount dstFee)
    (AnyChain.getAssetId srcChain (AssetAmount.asset dstFee))
    (AnyChain.getAssetPalletInstance srcChain asset) srcChain.

Definition contractParams (amount : Z) (dstAddress : string)
                          (dstFee : AssetAmount.t)
                          (transferConfig : TransferConfig.t)
  : ContractParams.t :=
  let srcChain := sourceChain transferConfig in
  let asset := TransferConfig.asset transferConfig in
  ContractParams.mk dstAddress amount (AnyChain.getAssetId srcChain asset)
    (destinationChain transferConfig) (AssetAmount.amount dstFee)
    (AnyChain.getAssetId srcChain (AssetAmount.asset dstFee)).

(** Classification of recorded calls. *)
Definition isContractBalanceQuery (ev : Event) : bool :=
  match ev with
  | EvFirstValueFrom (Erc20BalanceObservable _ _ _) => true
  | _ => false
  end.

Definition isBalanceQuery (ev : Event) : bool :=
  match ev with
  | EvFirstValueFrom _ => true
  | _ => false
  end.

Definition isBuilderCall (ev : Event) : bool :=
  match ev with
  | EvExtrinsicBuild _ | EvContractBuild _ => true
  | _ => false
  end.

Definition isContractBuilderCall (ev : Event) : bool :=
  match ev with
  | EvContractBuild _ => true
  | _ => false
  end.

(** The values written to the console, in order. *)
Fixpoint logged (t : list Event) : list AssetAmount.t :=
  match t with
  | [] => []
  | EvConsoleLog v :: t' => v :: logged t'
  | _ :: t' => logged t'
  end.

(** The round trip of the decimal normalizer as section 8 words it: back and
    forth never exceeds the amount, and is exact precisely when the target
    precision is not smaller. *)
Definition roundtrip_exact_iff_upward : Prop :=
  forall (n : Z) (d1 d2 : nat), 0 <= n ->
    exists m r, convertDecimals n d1 d2 = Ok m /\
                convertDecimals m d2 d1 = Ok r /\
                r <= n /\ (r = n <-> (d1 <= d2)%nat).

(** ** A concrete directory

    Chain A is queried through its chain client and keeps twelve decimals,
    chain B is EVM-compatible and keeps eighteen; asset X moves between
    them and asset Y pays fees. *)
Module Sample.
Definition assetX : Asset.t := Asset.mk "x" "X".
Definition assetY : Asset.t := Asset.mk "y" "Y".

Definition chainOf (key : string) : AnyChain.t :=
  AnyChain.mk key ("wss://" +:+ key) Asset.key Asset.key (fun _ => None).

Definition chainA : AnyChain.t := chainOf "chain-a".
Definition chainB : AnyChain.t := chainOf "chain-b".

Definition tokensAccounts : BalanceConfigBuilder := fun p =>
  CallConfig.mk Substrate "tokens" "accounts"
                [BalanceParams.address p; BalanceParams.asset p].

Definition systemAccount : BalanceConfigBuilder := fun p =>
  CallConfig.mk Substrate "system" "account" [BalanceParams.address p].

Definition erc20BalanceOf : BalanceConfigBuilder := fun p =>
  CallConfig.mk Evm "Erc20" "balanceOf"
                [BalanceParams.address p; BalanceParams.asset p].

(** A balance builder whose configuration carries neither known tag. *)
Definition untagged : BalanceConfigBuilder := fun p =>
  CallConfig.mk (OtherCallType "Custom") "custom" "balance"
                [BalanceParams.address p].

Definition xTokensTransfer : ExtrinsicConfigBuilder := fun p =>
  CallConfig.mk Substrate "xTokens" "transfer"
                [ExtrinsicParams.address p; ExtrinsicParams.asset p].

Definition xTokensContract : ContractConfigBuilder := fun p =>
  CallConfig.mk Evm "Xtokens" "transfer"
                [ContractParams.address p; ContractParams.asset p].

Definition assetConfig (balance : BalanceConfigBuilder)
                       (contract : option ContractConfigBuilder)
                       (extrinsic : option ExtrinsicConfigBuilder)
                       (fee : option FeeAssetConfig.t) : AssetConfig.t :=
  AssetConfig.mk assetX balance contract
    (DestinationFeeConfig.mk (FiniteNumber (2 # 100)) assetX tokensAccounts)
    extrinsic fee.

Definition route (src dst : AnyChain.t) (config : AssetConfig.t)
  : TransferConfig.t :=
  TransferConfig.mk assetX (ChainTransferConfig.mk src config)
                    (ChainTransferConfig.mk dst config).

Definition feeY : FeeAssetConfig.t := FeeAssetConfig.mk assetY systemAccount.

(** Route A to B, built as an extrinsic, no fee asset declared. *)
Definition routeExtrinsic : TransferConfig.t :=
  route chainA chainB
        (assetConfig tokensAccounts None (Some xTokensTransfer) None).

(** The same route with fees paid in Y. *)
Definition routeWithFee : TransferConfig.t :=
  route chainA chainB
        (assetConfig tokensAccounts None (Some xTokensTransfer) (Some feeY)).

(** Route A to B built as a contract call. *)
Definition routeContract : TransferConfig.t :=
  route chainA chainB
        (assetConfig tokensAccounts (Some xTokensContract) None None).

(** Routes whose configuration is defective: no builder, both builders. *)
Definition routeNoBuilder : TransferConfig.t :=
  route chainA chainB (assetConfig tokensAccounts None None None).

Definition routeBothBuilders : TransferConfig.t :=
  route chainA chainB
        (assetConfig tokensAccounts (Some xTokensContract)
                     (Some xTokensTransfer) None).

(** Route B to A, balance read from an ERC-20 contract. *)
Definition routeFromEvm : TransferConfig.t :=
  route chainB chainA
        (assetConfig erc20BalanceOf (Some xTokensContract) None None).

Definition decimalsOn (chain : AnyChain.t) : nat :=
  if decide (AnyChain.key chain = "chain-a") then 12%nat else 18%nat.

Definition world : World.t :=
  World.mk
    (fun endpoint => Ok (ApiAt endpoint))
    (fun stream =>
       match stream with
       | Erc20BalanceObservable _ _ asset => Ok (Balance.mk asset 2000)
       | SubstrateBalanceObservable _ _ asset => Ok (Balance.mk asset 1000)
       | merge _ => Err (Rejected "not a balance stream")
       end)
    (fun chain _ =>
       Ok (PolkadotService.mk (ApiAt (AnyChain.ws chain)) chain))
    (fun polkadot _ => Ok (decimalsOn (PolkadotService.chain polkadot)))
    (fun _ _ _ => Ok 7)
    (fun _ _ _ => Ok 21000000000000000)
    (fun _ => Ok 5)
    (fun n decimals => Qfloor (Qmult n (inject_Z (10 ^ Z.of_nat decimals)))).

Definition configService : IConfigService.t :=
  IConfigService.mk (fun asset src dst =>
    if decide (Asset.key asset = "x")
    then Ok (route src dst
               (assetConfig tokensAccounts None (Some xTokensTransfer) None))
    else Err (Error "No config found")).

Definition moonbeam : ViemChain := {| id := 1284; name := "Moonbeam" |}.
Definition hydration : ViemChain := {| id := 222222; name := "Hydration" |}.

(** A wallet with an EVM client for both chains. *)
Definition wallet : XcmWallet.t :=
  XcmWallet.new configService
                {[ "chain-a" := hydration; "chain-b" := moonbeam ]}.

(** A wallet with no EVM client at all. *)
Definition walletNoEvm : XcmWallet.t := XcmWallet.new configService ∅.
End Sample.

(** [getBalance] as section 4.4 words it: the raw balance of the matching
    resolver is converted into the decimals of the asset on the destination
    chain, which are the decimals the result carries. *)
Definition getBalance_destination_normalized
    (w : World.t) (this : XcmWallet.t) (address : string)
    (transferConfig : TransferConfig.t) : Prop :=
  let chain := sourceChain transferConfig in
  let asset := TransferConfig.asset transferConfig in
  let config := balanceConfig address transferConfig in
  forall raw polkadotSrc polkadotDst dSrc dDst,
    (CallConfig.type config = Evm ->
     outcome (getErc20Balance w this asset chain config) = Ok raw) ->
    (CallConfig.type config <> Evm ->
     outcome (getSubstrateBalance w asset chain config) = Ok raw) ->
    World.create w chain (XcmWallet.configService this) = Ok polkadotSrc ->
    World.getAssetDecimals w polkadotSrc asset = Ok dSrc ->
    World.create w (destinationChain transferConfig)
                 (XcmWallet.configService this) = Ok polkadotDst ->
    World.getAssetDecimals w polkadotDst asset = Ok dDst ->
    exists result converted,
      outcome (getBalance w this address transferConfig) = Ok result /\
      convertDecimals (Balance.balance raw) dSrc dDst = Ok converted /\
      AssetAmount.amount result = converted /\
      AssetAmount.decimals result = dDst.

(** The worked example of section 8 for [getSourceFee]: on an EVM route
    whose fee asset has twelve decimals on the source chain, a raw fee of
    21_000_000_000_000_000 wei is reported as 21_000_000. *)
Definition getSourceFee_example_21_000_000 : Prop :=
  forall (w : World.t) (this : XcmWallet.t) (amount : Z)
         (srcAddress dstAddress : string) (dstFee : AssetAmount.t)
         (transferConfig : TransferConfig.t) (polkadot : PolkadotService.t)
         (transfer : CallConfig.t) (evmClient : EvmClient),
    let chain := sourceChain transferConfig in
    World.create w chain (XcmWallet.configService this) = Ok polkadot ->
    World.getAssetDecimals w polkadot (AssetAmount.asset dstFee)
    = Ok 12%nat ->
    outcome (buildTransfer amount dstAddress dstFee transferConfig)
    = Ok transfer ->
    CallConfig.type transfer = Evm ->
    XcmWallet.evmCliets this !! AnyChain.key chain = Some evmClient ->
    World.xTokensGetFee w transfer (getProvider evmClient) amount
    = Ok 21000000000000000 ->
    exists result,
      outcome (getSourceFee w this amount srcAddress dstAddress dstFee
                            transferConfig) = Ok result /\
      AssetAmount.amount result = 21000000.

(** ** Subscription fan-in: statement helpers *)

Definition isEvmEntry (e : BalanceConfigEntry.t) : Prop :=
  CallConfig.type (BalanceConfigEntry.config e) = Evm.

Definition isSubstrateEntry (e : BalanceConfigEntry.t) : Prop :=
  CallConfig.type (BalanceConfigEntry.config e) = Substrate.

#[global] Instance isEvmEntry_dec e : Decision (isEvmEntry e).
Proof. unfold isEvmEntry. apply _. Defined.

#[global] Instance isSubstrateEntry_dec e : Decision (isSubstrateEntry e).
Proof. unfold isSubstrateEntry. apply _. Defined.

(** The subscription that belongs to one configured asset. *)
Definition subscriptionOf (client : EvmClient) (api : ApiPromise)
                          (e : BalanceConfigEntry.t) : Observable :=
  if decide (isEvmEntry e)
  then Erc20BalanceObservable client (BalanceConfigEntry.config e)
                              (BalanceConfigEntry.key e)
  else SubstrateBalanceObservable api (BalanceConfigEntry.config e)
                                  (BalanceConfigEntry.key e).

(** The same vocabulary for the configured assets themselves: the balance
    configuration built for one asset of the chain's configuration, its tag,
    and the subscription that belongs to the asset. *)
Definition builtBalanceConfig (address : string) (chain : AnyChain.t)
                              (assetConfig : AssetConfig.t) : CallConfig.t :=
  AssetConfig.balance assetConfig
    (BalanceParams.mk address
       (AnyChain.getBalanceAssetId chain (AssetConfig.asset assetConfig))).

Definition isEvmAsset (address : string) (chain : AnyChain.t)
                      (assetConfig : AssetConfig.t) : Prop :=
  CallConfig.type (builtBalanceConfig address chain assetConfig) = Evm.

Definition isSubstrateAsset (address : string) (chain : AnyChain.t)
                            (assetConfig : AssetConfig.t) : Prop :=
  CallConfig.type (builtBalanceConfig address chain assetConfig) = Substrate.

#[global] Instance isEvmAsset_dec address chain assetConfig :
  Decision (isEvmAsset address chain assetConfig).
Proof. unfold isEvmAsset. apply _. Defined.

#[global] Instance isSubstrateAsset_dec address chain assetConfig :
  Decision (isSubstrateAsset address chain assetConfig).
Proof. unfold isSubstrateAsset. apply _. Defined.

Definition assetSubscription (client : EvmClient) (api : ApiPromise)
                             (address : string) (chain : AnyChain.t)
                             (assetConfig : AssetConfig.t) : Observable :=
  if decide (isEvmAsset address chain assetConfig)
  then Erc20BalanceObservable client
         (builtBalanceConfig address chain assetConfig)
         (Asset.key (AssetConfig.asset assetConfig))
  else SubstrateBalanceObservable api
         (builtBalanceConfig address chain assetConfig)
         (Asset.key (AssetConfig.asset assetConfig)).

(** From the entries of [getBalanceConfigs] back to the configured assets:
    there is one entry for each asset of the chain's configuration, in
    order, holding the key of the asset and its built configuration. *)
Definition entryOf (address : string) (chain : AnyChain.t)
                   (assetConfig : AssetConfig.t) : BalanceConfigEntry.t :=
  BalanceConfigEntry.mk (Asset.key (AssetConfig.asset assetConfig))
                        (builtBalanceConfig address chain assetConfig).

Module SampleChain.
Definition assetZ : Asset.t := Asset.mk "z" "Z".

Definition configFor (asset : Asset.t) (balance : BalanceConfigBuilder)
  : AssetConfig.t :=
  AssetConfig.mk asset balance None
    (DestinationFeeConfig.mk (FiniteNumber (2 # 100)) asset balance)
    (Some Sample.xTokensTransfer) None.

(** Chain B holds X through a chain query, Y as an ERC-20 token, and Z
    through a configuration with an unknown tag. *)
Definition chainConfig : ChainConfig.t :=
  ChainConfig.mk [configFor Sample.assetX Sample.tokensAccounts;
                  configFor Sample.assetY Sample.erc20BalanceOf;
                  configFor assetZ Sample.untagged].
End SampleChain.

(** ** The remaining methods of [XcmWallet] *)

(** What reading [this.evmChains[key]] gives: the viem chain the wallet
    holds under the key, a property that every object inherits, or
    [undefined]. *)
Inductive ChainProperty :=
| ChainOf (chain : ViemChain)
| InheritedChain (name : string)
| NoChain.

(** The signer that viem's [createWalletClient] makes for an account. *)
Module WalletClient.
Record t := mk { account : string; chain : ViemChain }.
End WalletClient.

(** [SdkTransferParams], the argument of the SDK's [getTransferData];
    [evmSigner] stays [undefined] unless one is made. *)
Module SdkTransferParams.
Record t := mk {
  destinationAddress : string;
  destinationKeyOrChain : AnyChain.t;
  keyOrAsset : Asset.t;
  sourceAddress : string;
  sourceKeyOrChain : AnyChain.t;
  evmSigner : option WalletClient.t }.
End SdkTransferParams.

(** The part of [AssetConfig] and of the chain descriptor that only [getMin]
    and [getFee] read: the optional [min] builder of the configuration, and
    the chain's [getMinAssetId] and [getAssetMin]. *)
Module MinParams.
Record t := mk { asset : ChainAssetId }.
End MinParams.

Definition MinConfigBuilder := MinParams.t -> CallConfig.t.

Module MinAssetConfig.
Record t := mk { config : AssetConfig.t; min : option MinConfigBuilder }.
End MinAssetConfig.

Module MinChain.
Record t := mk {
  chain : AnyChain.t;
  getMinAssetId : Asset.t -> ChainAssetId;
  getAssetMin : Asset.t -> Q }.
End MinChain.

Section WalletRest.
Context (w : World.t) (this : XcmWallet.t).

(** [this.transfer] is the SDK's [getTransferData]; [isEvmParachain] is the
    method of the chain descriptor, given as a function of the descriptor;
    [createWalletClient] stands for viem's
    [createWalletClient({ account, chain, transport: http() })], which
    throws when it cannot make a client, as it does without a chain to take
    the URL of the transport from. *)
Context {TransferData : Type}
        (transfer : SdkTransferParams.t -> result TransferData)
        (isEvmParachain : AnyChain.t -> bool)
        (createWalletClient : string -> ChainProperty -> result WalletClient.t).

Definition evmChainOf (key : string) : ChainProperty :=
  match XcmWallet.evmChains this !! key with
  | Some chain => ChainOf chain
  | None => if decide (key ∈ inheritedKeys) then InheritedChain key
            else NoChain
  end.

Definition getTransferData (srcAddr : string) (srcChain : AnyChain.t)
                           (dstAddr : string) (dstChain : AnyChain.t)
                           (asset : Asset.t) : result TransferData :=
  let evmSigner : option WalletClient.t := None in
  let afterSource : result (option WalletClient.t) :=
    if isEvmParachain srcChain
    then
      let evmChain := evmChainOf (AnyChain.key srcChain) in
      match createWalletClient srcAddr evmChain with
      | Ok signer => Ok (Some signer)
      | Err e => Err e
      end
    else Ok evmSigner in
  match afterSource with
  | Err e => Err e
  | Ok evmSigner =>
      let afterDestination : result (option WalletClient.t) :=
        if isEvmParachain dstChain
        then
          let evmChain := evmChainOf (AnyChain.key dstChain) in
          match createWalletClient dstAddr evmChain with
          | Ok signer => Ok (Some signer)
          | Err e => Err e
          end
        else Ok evmSigner in
      match afterDestination with
      | Err e => Err e
      | Ok evmSigner =>
          transfer (SdkTransferParams.mk dstAddr dstChain asset srcAddr
                                         srcChain evmSigner)
      end
  end.

(** [if (min)] on a number, taken finite here: zero is the falsy one. *)
Definition truthy (n : Q) : bool := negb (Qeq_bool n 0).

Definition getMin (config : MinAssetConfig.t) (chain : MinChain.t) : M Z :=
  let asset := AssetConfig.asset (MinAssetConfig.config config) in
  match MinAssetConfig.min config with
  | Some minBuilder =>
      let minAssetId := MinChain.getMinAssetId chain asset in
      let minConfig := minBuilder (MinParams.mk minAssetId) in
      balance ← getSubstrateBalance w asset (MinChain.chain chain) minConfig;
      mret (Balance.balance balance)
  | None =>
      let min :=
        MinChain.getAssetMin chain
          (AssetConfig.asset (MinAssetConfig.config config)) in
      if truthy min then mret (World.toBigInt w min 12) else mret 0
  end.

Definition getFee (config : MinAssetConfig.t) (chain : MinChain.t) : M Z :=
  match MinAssetConfig.min config with
  | Some minBuilder =>
      let minAssetId :=
        MinChain.getMinAssetId chain
          (AssetConfig.asset (MinAssetConfig.config config)) in
      let cfg := minBuilder (MinParams.mk minAssetId) in
      balance ← getSubstrateBalance w
                  (AssetConfig.asset (MinAssetConfig.config config))
                  (MinChain.chain chain) cfg;
      mret (Balance.balance balance)
  | None =>
      let min :=
        MinChain.getAssetMin chain
          (AssetConfig.asset (MinAssetConfig.config config)) in
      if truthy min then mret (World.toBigInt w min 12) else mret 0
  end.

End WalletRest.

(** More classes of recorded calls. *)
Definition isFeeEstimate (ev : Event) : bool :=
  match ev with
  | EvXTokensGetFee _ _ | EvPolkadotGetFee _ _ => true
  | _ => false
  end.

Definition isFeeConfigCall (ev : Event) : bool :=
  match ev with
  | EvFeeConfigCall _ => true
  | _ => false
  end.

Definition isGetPolkadotApi (ev : Event) : bool :=
  match ev with
  | EvGetPolkadotApi _ => true
  | _ => false
  end.

(** The resolver that [getBalance] picks for a route. *)
Definition balanceResolver (w : World.t) (this : XcmWallet.t)
                           (address : string)
                           (transferConfig : TransferConfig.t) : M Balance.t :=
  let config := balanceConfig address transferConfig in
  if decide (CallConfig.type config = Evm)
  then getErc20Balance w this (TransferConfig.asset transferConfig)
                       (sourceChain transferConfig) config
  else getSubstrateBalance w (TransferConfig.asset transferConfig)
                           (sourceChain transferConfig) config.

Module SampleMin.
Definition minimumOf : MinConfigBuilder := fun p =>
  CallConfig.mk Substrate "assets" "minimum" [MinParams.asset p].

Definition chainA (min : Q) : MinChain.t :=
  MinChain.mk Sample.chainA Asset.key (fun _ => min).

Definition config (min : option MinConfigBuilder) : MinAssetConfig.t :=
  MinAssetConfig.mk
    (Sample.assetConfig Sample.tokensAccounts None
                        (Some Sample.xTokensTransfer) None) min.
End SampleMin.

Definition isDirectoryLookup (ev : Event) : bool :=
  match ev with
  | EvPolkadotServiceCreate _ | EvGetAssetDecimals _ _ => true
  | _ => false
  end.

Module SampleFee.
(** Route A to B whose fee asset Y is read with the builder of X itself. *)
Definition feeSameBuilder : FeeAssetConfig.t :=
  FeeAssetConfig.mk Sample.assetY Sample.tokensAccounts.

Definition routeFeeSameBuilder : TransferConfig.t :=
  Sample.route Sample.chainA Sample.chainB
    (Sample.assetConfig Sample.tokensAccounts None
                        (Some Sample.xTokensTransfer) (Some feeSameBuilder)).

(** A world whose chain clients never connect. *)
Definition offline : World.t :=
  World.mk
    (fun _ => Err (Rejected "disconnected"))
    (World.firstValueFrom Sample.world)
    (World.create Sample.world)
    (World.getAssetDecimals Sample.world)
    (World.getFee Sample.world)
    (World.xTokensGetFee Sample.world)
    (World.feeConfigCall Sample.world)
    (World.toBigInt Sample.world).
End SampleFee.

Module SampleDynamic.
(** A destination fee that is computed on chain. *)
Definition assetHubFee : FeeConfigBuilder := fun p =>
  CallConfig.mk Substrate "assetManager" "unitsPerSecond" [FeeParams.asset p].

Definition routeDynamicFee : TransferConfig.t :=
  Sample.route Sample.chainA Sample.chainB
    (AssetConfig.mk Sample.assetX Sample.tokensAccounts None
       (DestinationFeeConfig.mk (DynamicFee assetHubFee) Sample.assetY
                                Sample.tokensAccounts)
       (Some Sample.xTokensTransfer) None).

Definition routeNonFiniteFee : TransferConfig.t :=
  Sample.route Sample.chainA Sample.chainB
    (AssetConfig.mk Sample.assetX Sample.tokensAccounts None
       (DestinationFeeConfig.mk NonFiniteNumber Sample.assetY
                                Sample.tokensAccounts)
       (Some Sample.xTokensTransfer) None).
End SampleDynamic.

Module SampleSubstrateOnly.
(** Chain A holds X and Y, both read through chain queries. *)
Definition chainConfig : ChainConfig.t :=
  ChainConfig.mk [SampleChain.configFor Sample.assetX Sample.tokensAccounts;
                  SampleChain.configFor Sample.assetY Sample.systemAccount].

(** The route from A to B for X with the first of these configurations. *)
Definition routeX : TransferConfig.t :=
  Sample.route Sample.chainA Sample.chainB
    (SampleChain.configFor Sample.assetX Sample.tokensAccounts).
End SampleSubstrateOnly.

Module SampleSdk.
(** An SDK that answers with the signer it was handed. *)
Definition transfer (params : SdkTransferParams.t)
  : result (option WalletClient.t) :=
  Ok (SdkTransferParams.evmSigner params).

Definition isEvmParachain (chain : AnyChain.t) : bool :=
  if decide (AnyChain.key chain = "chain-b") then true else false.

Definition everyChainEvm (chain : AnyChain.t) : bool := true.

(** A client is made for a viem chain only. *)
Definition createWalletClient (account : string) (chain : ChainProperty)
  : result WalletClient.t :=
  match chain with
  | ChainOf c => Ok (WalletClient.mk account c)
  | InheritedChain _ => Err (TypeError "chain.rpcUrls is undefined")
  | NoChain => Err (Error "No URL was provided to the Transport")
  end.
End SampleSdk.


(** The chains for which a chain service was created, in order. *)
Fixpoint serviceCreations (t : list Event) : list string :=
  match t with
  | [] => []
  | EvPolkadotServiceCreate chain :: t' => chain :: serviceCreations t'
  | _ :: t' => serviceCreations t'
  end.

(** ** Laws of the monad *)

Lemma bind_ok {A B} (m : M A) (f : A -> M B) (a : A) :
  outcome m = Ok a ->
  m ≫= f = ((trace m ++ trace (f a))%list, outcome (f a)).
Proof.
  destruct m as [t r]; simpl; intros ->.
  unfold mbind, M_bind. destruct (f a); reflexivity.
Qed.

Lemma bind_err {A B} (m : M A) (f : A -> M B) (e : error) :
  outcome m = Err e -> m ≫= f = (trace m, Err e).
Proof. destruct m as [t r]; simpl; intros ->. reflexivity. Qed.

Lemma bind_call_ok {A B} (ev : Event) (a : A) (f : A -> M B) :
  call ev (Ok a) ≫= f = (ev :: trace (f a), outcome (f a)).
Proof. apply (bind_ok (call ev (Ok a)) f a eq_refl). Qed.

Lemma bind_pure {A B} (a : A) (f : A -> M B) :
  (([], Ok a) : M A) ≫= f = f a.
Proof. unfold mbind, M_bind. destruct (f a). reflexivity. Qed.

(** ** The model at work *)

Example getErc20Balance_without_client :
  getErc20Balance Sample.world Sample.walletNoEvm Sample.assetX Sample.chainB
    (Sample.erc20BalanceOf (BalanceParams.mk "0xabc" "x"))
  = ([], Err (Error ("No evm configuration found for "
                     +:+ dquote +:+ "[object Object]" +:+ dquote))).
Proof. reflexivity. Qed.

Example getBalance_from_evm_without_client_fails :
  exists e, getBalance Sample.world Sample.walletNoEvm "0xabc"
              Sample.routeFromEvm = ([], Err e).
Proof. eexists. reflexivity. Qed.

Example getSourceData_unknown_route :
  getSourceData Sample.world Sample.wallet "5Grw" Sample.chainA "0xdest"
    Sample.chainB Sample.assetY
  = ([], Err (Error "No config found")).
Proof. reflexivity. Qed.

Example getDestinationFee_fixed_amount :
  outcome (getDestinationFee Sample.world Sample.wallet Sample.routeExtrinsic)
  = Ok (AssetAmount.mk Sample.assetX 20000000000000000 18).
Proof. reflexivity. Qed.

Example getSourceFee_extrinsic_route :
  getSourceFee Sample.world Sample.wallet 1000 "5Grw" "0xdest"
    (AssetAmount.mk Sample.assetX 20 12) Sample.routeExtrinsic
  = ([EvPolkadotServiceCreate "chain-a";
      EvGetAssetDecimals "chain-a" Sample.assetX;
      EvExtrinsicBuild
        (extrinsicParams 1000 "0xdest" (AssetAmount.mk Sample.assetX 20 12)
           Sample.routeExtrinsic);
      EvPolkadotGetFee "5Grw"
        (Sample.xTokensTransfer
           (extrinsicParams 1000 "0xdest" (AssetAmount.mk Sample.assetX 20 12)
              Sample.routeExtrinsic))],
     Ok (AssetAmount.mk Sample.assetX 7 12)).
Proof. reflexivity. Qed.

Example subscribeBalance_without_client_fails :
  exists e, outcome (subscribeBalance Sample.world Sample.walletNoEvm "0xabc"
                       Sample.chainB SampleChain.chainConfig) = Err e.
Proof. eexists. reflexivity. Qed.

Example convertDecimals_rejects_negative :
  convertDecimals (-1) 12 18 = Err InvalidAmountError.
Proof. reflexivity. Qed.

Example convertDecimals_truncates :
  convertDecimals 1999999 6 0 = Ok 1.
Proof. reflexivity. Qed.

(** ** Decimal normalizer: arithmetic *)

Lemma pow10_pos (k : nat) : 0 < 10 ^ Z.of_nat k.
Proof. apply Z.pow_pos_nonneg; lia. Qed.

Lemma convertDecimals_up (n : Z) (d1 d2 : nat) :
  0 <= n -> (d1 <= d2)%nat ->
  convertDecimals n d1 d2 = Ok (n * 10 ^ Z.of_nat (d2 - d1)).
Proof.
  intros Hn Hd. unfold convertDecimals.
  destruct (Z.ltb_spec n 0); [lia|].
  destruct (Nat.ltb_spec d1 d2); [reflexivity|].
  destruct (Nat.ltb_spec d2 d1); [lia|].
  replace (d2 - d1)%nat with 0%nat by lia. simpl. f_equal. lia.
Qed.

Lemma convertDecimals_down (n : Z) (d1 d2 : nat) :
  0 <= n -> (d2 <= d1)%nat ->
  convertDecimals n d1 d2 = Ok (n / 10 ^ Z.of_nat (d1 - d2)).
Proof.
  intros Hn Hd. unfold convertDecimals.
  destruct (Z.ltb_spec n 0); [lia|].
  destruct (Nat.ltb_spec d1 d2); [lia|].
  destruct (Nat.ltb_spec d2 d1).
  - rewrite Z.quot_div_nonneg; [reflexivity | lia | apply pow10_pos].
  - replace (d1 - d2)%nat with 0%nat by lia. simpl.
    rewrite Z.div_1_r. reflexivity.
Qed.

(** ** The decimal normalizer *)

(** C8, as stated, fails: ten units at one decimal go down to one unit at
    zero decimals and come back as ten, an exact round trip although the
    target precision is smaller. *)
Lemma roundtrip_exact_iff_upward_fails : ~ roundtrip_exact_iff_upward.
Proof.
  intros H. destruct (H 10 1%nat 0%nat ltac:(lia)) as (m & r & Hm & Hr & _ & Hiff).
  vm_compute in Hm. injection Hm as <-.
  vm_compute in Hr. injection Hr as <-.
  destruct Hiff as [Hiff _]. specialize (Hiff eq_refl). lia.
Qed.

(** C8, amended: for a non-negative amount [n], converting from [d1] to [d2]
    decimals and back gives a value [r <= n]; [r = n] exactly when
    [d2 >= d1] or [n] is a multiple of [10^(d1-d2)].  Going up multiplies by
    [10^(d2-d1)] exactly; going down is the quotient truncated toward zero,
    the largest [m] with [m * 10^(d1-d2) <= n]. *)
Theorem convertDecimals_roundtrip (n : Z) (d1 d2 : nat) :
  0 <= n ->
  exists m r,
    convertDecimals n d1 d2 = Ok m /\
    convertDecimals m d2 d1 = Ok r /\
    r <= n /\
    (r = n <-> (d1 <= d2)%nat \/ (10 ^ Z.of_nat (d1 - d2) | n)) /\
    ((d1 <= d2)%nat -> m = n * 10 ^ Z.of_nat (d2 - d1)) /\
    ((d2 <= d1)%nat ->
       m = n ÷ 10 ^ Z.of_nat (d1 - d2) /\
       m * 10 ^ Z.of_nat (d1 - d2) <= n < (m + 1) * 10 ^ Z.of_nat (d1 - d2)).
Proof.
  intros Hn.
  destruct (le_lt_dec d1 d2) as [Hle | Hlt].
  - pose proof (pow10_pos (d2 - d1)) as Hp.
    exists (n * 10 ^ Z.of_nat (d2 - d1)), n.
    split; [apply convertDecimals_up; lia|].
    split.
    { rewrite convertDecimals_down by (try nia; lia).
      rewrite Z.div_mul by lia. reflexivity. }
    split; [lia|]. split; [tauto|]. split; [reflexivity|].
    intros Hge. assert (d1 = d2) as -> by lia.
    rewrite Nat.sub_diag. simpl. rewrite Z.quot_1_r. lia.
  - set (p := 10 ^ Z.of_nat (d1 - d2)).
    assert (0 < p) as Hp by apply pow10_pos.
    pose proof (Z.div_mod n p ltac:(lia)) as Hdm.
    pose proof (Z.mod_pos_bound n p Hp) as Hmod.
    assert (0 <= n / p) as Hq by (apply Z.div_pos; lia).
    exists (n / p), (n / p * p).
    split; [apply convertDecimals_down; lia|].
    split; [apply convertDecimals_up; lia|].
    split; [nia|].
    split.
    { split.
      - intros Heq. right. exists (n / p). lia.
      - intros [Hle | [k Hk]]; [lia|].
        subst n. rewrite Z.div_mul by lia. reflexivity. }
    split; [lia|].
    intros _. split.
    + fold p. rewrite Z.quot_div_nonneg by lia. reflexivity.
    + fold p. nia.
Qed.

Lemma convertDecimals_roundtrip_witness :
  exists m r,
    convertDecimals 1234 3%nat 1%nat = Ok m /\
    convertDecimals m 1%nat 3%nat = Ok r /\
    r <= 1234 /\
    (r = 1234 <-> (3 <= 1)%nat \/ (10 ^ Z.of_nat (3 - 1) | 1234)) /\
    ((3 <= 1)%nat -> m = 1234 * 10 ^ Z.of_nat (1 - 3)) /\
    ((1 <= 3)%nat ->
       m = 1234 ÷ 10 ^ Z.of_nat (3 - 1) /\
       m * 10 ^ Z.of_nat (3 - 1) <= 1234 < (m + 1) * 10 ^ Z.of_nat (3 - 1)).
Proof. apply (convertDecimals_roundtrip 1234 3 1). lia. Defined.

(** ** Transfer assembly *)

(** C5: [buildTransfer] runs exactly one builder whenever one is present,
    the extrinsic builder if it is there and the contract builder if only
    that one is; when neither is configured it fails with the error "Either
    contract or extrinsic must be provided" and calls no builder. *)
Theorem buildTransfer_selects_one_branch
    (amount : Z) (dstAddress : string)
    (dstFee : AssetAmount.t) (transferConfig : TransferConfig.t) :
  let config := sourceConfig transferConfig in
  let run := buildTransfer amount dstAddress dstFee transferConfig in
  (AssetConfig.extrinsic config = None ->
   AssetConfig.contract config = None ->
   run = ([], Err (Error "Either contract or extrinsic must be provided")))
  /\
  (forall extrinsic, AssetConfig.extrinsic config = Some extrinsic ->
     let params := extrinsicParams amount dstAddress dstFee transferConfig in
     run = ([EvExtrinsicBuild params], Ok (extrinsic params)))
  /\
  (forall contract, AssetConfig.extrinsic config = None ->
     AssetConfig.contract config = Some contract ->
     let params := contractParams amount dstAddress dstFee transferConfig in
     run = ([EvContractBuild params], Ok (contract params)))
  /\
  (is_Some (AssetConfig.extrinsic config) \/
   is_Some (AssetConfig.contract config) ->
   exists transfer, outcome run = Ok transfer /\
     length (List.filter isBuilderCall (trace run)) = 1%nat).
Proof.
  intros config run. subst config run.
  unfold buildTransfer, sourceConfig, extrinsicParams, contractParams,
    sourceChain, destinationChain.
  repeat split.
  - intros -> ->. reflexivity.
  - intros extrinsic ->. reflexivity.
  - intros contract -> ->. reflexivity.
  - intros [[e He] | [c Hc]].
    + rewrite He. eexists; split; reflexivity.
    + rewrite Hc.
      destruct (AssetConfig.extrinsic _); eexists; split; reflexivity.
Qed.

Lemma buildTransfer_selects_one_branch_witness :
  buildTransfer 1000 "0xdest"
    (AssetAmount.mk Sample.assetX 20 12) Sample.routeNoBuilder
  = ([], Err (Error "Either contract or extrinsic must be provided"))
  /\
  (exists transfer,
     outcome (buildTransfer 1000 "0xdest"
                (AssetAmount.mk Sample.assetX 20 12) Sample.routeContract)
     = Ok transfer /\
     length (List.filter isBuilderCall
               (trace (buildTransfer 1000 "0xdest"
                         (AssetAmount.mk Sample.assetX 20 12)
                         Sample.routeContract))) = 1%nat).
Proof.
  split.
  - apply (buildTransfer_selects_one_branch 1000
             "0xdest" (AssetAmount.mk Sample.assetX 20 12)
             Sample.routeNoBuilder); reflexivity.
  - apply (buildTransfer_selects_one_branch 1000
             "0xdest" (AssetAmount.mk Sample.assetX 20 12)
             Sample.routeContract).
    right. eexists. reflexivity.
Defined.

(** C9: when both builders are configured, [buildTransfer] takes the
    extrinsic branch: the call it returns is the one built by the extrinsic
    builder and the contract builder is not called. *)
Theorem buildTransfer_extrinsic_precedence
    (amount : Z) (dstAddress : string)
    (dstFee : AssetAmount.t) (transferConfig : TransferConfig.t)
    (extrinsic : ExtrinsicConfigBuilder) (contract : ContractConfigBuilder) :
  AssetConfig.extrinsic (sourceConfig transferConfig) = Some extrinsic ->
  AssetConfig.contract (sourceConfig transferConfig) = Some contract ->
  let params := extrinsicParams amount dstAddress dstFee transferConfig in
  let run := buildTransfer amount dstAddress dstFee transferConfig in
  run = ([EvExtrinsicBuild params], Ok (extrinsic params)) /\
  Forall (fun ev => isContractBuilderCall ev = false) (trace run).
Proof.
  intros He Hc params run. subst params run.
  unfold buildTransfer, sourceConfig, extrinsicParams, sourceChain,
    destinationChain in *.
  rewrite He. split; [reflexivity|].
  repeat constructor.
Qed.

Lemma buildTransfer_extrinsic_precedence_witness :
  let params := extrinsicParams 1000 "0xdest"
                  (AssetAmount.mk Sample.assetX 20 12)
                  Sample.routeBothBuilders in
  let run := buildTransfer 1000 "0xdest"
               (AssetAmount.mk Sample.assetX 20 12)
               Sample.routeBothBuilders in
  run = ([EvExtrinsicBuild params], Ok (Sample.xTokensTransfer params)) /\
  Forall (fun ev => isContractBuilderCall ev = false) (trace run).
Proof.
  apply (buildTransfer_extrinsic_precedence 1000
           "0xdest" (AssetAmount.mk Sample.assetX 20 12)
           Sample.routeBothBuilders Sample.xTokensTransfer
           Sample.xTokensContract); reflexivity.
Defined.

(** ** Balances *)

(** Unfold the methods down to the answers of the collaborators. *)
Ltac unfold_wallet :=
  unfold getBalance, getFeeBalance, getDestinationFee, getSourceFee,
    getErc20Balance, getSubstrateBalance, getEvmClient, getPolkadotApi,
    PolkadotService_create, getAssetDecimals, console_log, throw, call,
    balanceConfig, balanceParams, sourceConfig, sourceChain, destinationChain
    in *;
  unfold mbind, M_bind, mret, M_ret in *.

(** Case analysis on every answer that is still open in the goal. *)
Ltac case_answers :=
  repeat match goal with
         | |- context [match ?r with Ok _ => _ | Err _ => _ end] =>
             destruct r eqn:?; simpl
         | |- context [match ?o with Some _ => _ | None => _ end] =>
             destruct o eqn:?; simpl
         | |- context [if ?d then _ else _] => destruct d; simpl
         end.

(** C3: on a route whose balance configuration is a chain query and whose
    asset has twelve decimals on the source chain, [getBalance] returns the
    raw balance of the chain query unchanged, with decimals twelve. *)
Theorem getBalance_chain_query_unchanged
    (w : World.t) (this : XcmWallet.t) (address : string)
    (transferConfig : TransferConfig.t) (api : ApiPromise)
    (balance : Balance.t) (polkadot : PolkadotService.t) :
  let chain := sourceChain transferConfig in
  let asset := TransferConfig.asset transferConfig in
  let config := balanceConfig address transferConfig in
  CallConfig.type config = Substrate ->
  World.getPolkadotApi w (AnyChain.ws chain) = Ok api ->
  World.firstValueFrom w
    (SubstrateBalanceObservable api config (Asset.key asset)) = Ok balance ->
  World.create w chain (XcmWallet.configService this) = Ok polkadot ->
  World.getAssetDecimals w polkadot asset = Ok 12%nat ->
  outcome (getBalance w this address transferConfig)
  = Ok (AssetAmount.mk asset (Balance.balance balance) 12).
Proof.
  intros chain asset config Htype Hapi Hbal Hcreate Hdec.
  subst chain asset config. unfold_wallet.
  rewrite Htype. simpl. rewrite Hapi. simpl. rewrite Hbal, Hcreate.
  simpl. rewrite Hdec. reflexivity.
Qed.

Lemma getBalance_chain_query_unchanged_witness :
  outcome (getBalance Sample.world Sample.wallet "5Grw" Sample.routeExtrinsic)
  = Ok (AssetAmount.mk Sample.assetX 1000 12).
Proof.
  apply (getBalance_chain_query_unchanged Sample.world Sample.wallet "5Grw"
           Sample.routeExtrinsic (ApiAt "wss://chain-a")
           (Balance.mk "x" 1000)
           (PolkadotService.mk (ApiAt "wss://chain-a") Sample.chainA));
    reflexivity.
Defined.

(** C2, as stated, fails: on the route from chain A (twelve decimals) to
    chain B (eighteen decimals) the raw balance 1000 comes back as amount
    1000 with decimals 12, neither converted nor labelled with the decimals
    of the destination chain. *)
Lemma getBalance_not_destination_normalized :
  ~ getBalance_destination_normalized Sample.world Sample.wallet "5Grw"
      Sample.routeExtrinsic.
Proof.
  intros H.
  destruct (H (Balance.mk "x" 1000)
              (PolkadotService.mk (ApiAt "wss://chain-a") Sample.chainA)
              (PolkadotService.mk (ApiAt "wss://chain-b") Sample.chainB)
              12%nat 18%nat)
    as (result & converted & Hres & _ & _ & Hdec);
    try reflexivity.
  - intros Hevm. discriminate Hevm.
  - vm_compute in Hres. injection Hres as <-. discriminate Hdec.
Qed.

(** C2, amended: [getBalance] dispatches on the tag of the built balance
    configuration, tag [Evm] to the contract-call resolver and every other
    tag to the chain-query resolver, and returns the raw balance of that
    resolver unchanged, with the decimals that the directory gives for the
    asset on the source chain. *)
Theorem getBalance_dispatch_raw_amount
    (w : World.t) (this : XcmWallet.t) (address : string)
    (transferConfig : TransferConfig.t) (balance : Balance.t)
    (polkadot : PolkadotService.t) (d : nat) :
  let chain := sourceChain transferConfig in
  let asset := TransferConfig.asset transferConfig in
  let config := balanceConfig address transferConfig in
  let lookup := [EvPolkadotServiceCreate (AnyChain.key chain);
                 EvGetAssetDecimals
                   (AnyChain.key (PolkadotService.chain polkadot)) asset] in
  World.create w chain (XcmWallet.configService this) = Ok polkadot ->
  World.getAssetDecimals w polkadot asset = Ok d ->
  (CallConfig.type config = Evm ->
   outcome (getErc20Balance w this asset chain config) = Ok balance ->
   getBalance w this address transferConfig
   = ((trace (getErc20Balance w this asset chain config) ++ lookup)%list,
      Ok (AssetAmount.mk asset (Balance.balance balance) d)))
  /\
  (CallConfig.type config <> Evm ->
   outcome (getSubstrateBalance w asset chain config) = Ok balance ->
   getBalance w this address transferConfig
   = ((trace (getSubstrateBalance w asset chain config) ++ lookup)%list,
      Ok (AssetAmount.mk asset (Balance.balance balance) d))).
Proof.
  intros chain asset config lookup Hcreate Hdec.
  subst chain asset config lookup.
  split; intros Htype Hbal; unfold getBalance;
    fold (sourceChain transferConfig) (sourceConfig transferConfig);
    fold (balanceParams address transferConfig);
    fold (balanceConfig address transferConfig).
  - rewrite decide_True by exact Htype.
    rewrite (bind_ok _ _ _ Hbal). f_equal.
    + f_equal. unfold PolkadotService_create, getAssetDecimals, call, trace.
      unfold mbind, M_bind, mret, M_ret. rewrite Hcreate. simpl.
      rewrite Hdec. reflexivity.
    + unfold PolkadotService_create, getAssetDecimals, call, outcome.
      unfold mbind, M_bind, mret, M_ret. rewrite Hcreate. simpl.
      rewrite Hdec. reflexivity.
  - rewrite decide_False by exact Htype.
    rewrite (bind_ok _ _ _ Hbal). f_equal.
    + f_equal. unfold PolkadotService_create, getAssetDecimals, call, trace.
      unfold mbind, M_bind, mret, M_ret. rewrite Hcreate. simpl.
      rewrite Hdec. reflexivity.
    + unfold PolkadotService_create, getAssetDecimals, call, outcome.
      unfold mbind, M_bind, mret, M_ret. rewrite Hcreate. simpl.
      rewrite Hdec. reflexivity.
Qed.

Lemma getBalance_dispatch_raw_amount_witness :
  getBalance Sample.world Sample.wallet "0xabc" Sample.routeFromEvm
  = ([EvFirstValueFrom
        (Erc20BalanceObservable (NewEvmClient Sample.moonbeam)
           (Sample.erc20BalanceOf (BalanceParams.mk "0xabc" "x")) "x");
      EvPolkadotServiceCreate "chain-b";
      EvGetAssetDecimals "chain-b" Sample.assetX],
     Ok (AssetAmount.mk Sample.assetX 2000 18))
  /\
  getBalance Sample.world Sample.wallet "5Grw" Sample.routeExtrinsic
  = ([EvGetPolkadotApi "wss://chain-a";
      EvFirstValueFrom
        (SubstrateBalanceObservable (ApiAt "wss://chain-a")
           (Sample.tokensAccounts (BalanceParams.mk "5Grw" "x")) "x");
      EvPolkadotServiceCreate "chain-a";
      EvGetAssetDecimals "chain-a" Sample.assetX],
     Ok (AssetAmount.mk Sample.assetX 1000 12)).
Proof.
  split.
  - apply (proj1 (getBalance_dispatch_raw_amount Sample.world Sample.wallet
             "0xabc" Sample.routeFromEvm (Balance.mk "x" 2000)
             (PolkadotService.mk (ApiAt "wss://chain-b") Sample.chainB)
             18%nat eq_refl eq_refl)); reflexivity.
  - apply (proj2 (getBalance_dispatch_raw_amount Sample.world Sample.wallet
             "5Grw" Sample.routeExtrinsic (Balance.mk "x" 1000)
             (PolkadotService.mk (ApiAt "wss://chain-a") Sample.chainA)
             12%nat eq_refl eq_refl)); [discriminate | reflexivity].
Defined.

(** ** Fee balances *)

(** C4: on a route that declares a fee asset, [getFeeBalance] never asks a
    contract for a balance, whatever the tag of the built configuration, and
    its result carries the fee asset and the decimals the directory gives
    for the fee asset.  The balance in the result, however, is that of one
    chain query which the balance builder of the fee configuration builds
    from the address and the balance id the chain gives for the transfer
    asset, read under the key of the transfer asset: the fee asset enters
    the label, not the query. *)
Theorem getFeeBalance_fee_asset_chain_query
    (w : World.t) (this : XcmWallet.t) (address : string)
    (transferConfig : TransferConfig.t) (fee : FeeAssetConfig.t) :
  AssetConfig.fee (sourceConfig transferConfig) = Some fee ->
  let chain := sourceChain transferConfig in
  let asset := TransferConfig.asset transferConfig in
  let config :=
    FeeAssetConfig.balance fee (balanceParams address transferConfig) in
  Forall (fun ev => isContractBalanceQuery ev = false)
         (trace (getFeeBalance w this address transferConfig))
  /\
  (forall api balance polkadot d,
     World.getPolkadotApi w (AnyChain.ws chain) = Ok api ->
     World.firstValueFrom w
       (SubstrateBalanceObservable api config (Asset.key asset))
     = Ok balance ->
     World.create w chain (XcmWallet.configService this) = Ok polkadot ->
     World.getAssetDecimals w polkadot (FeeAssetConfig.asset fee) = Ok d ->
     getFeeBalance w this address transferConfig
     = ([EvGetPolkadotApi (AnyChain.ws chain);
         EvFirstValueFrom
           (SubstrateBalanceObservable api config (Asset.key asset));
         EvPolkadotServiceCreate (AnyChain.key chain);
         EvGetAssetDecimals (AnyChain.key (PolkadotService.chain polkadot))
                            (FeeAssetConfig.asset fee)],
        Ok (AssetAmount.mk (FeeAssetConfig.asset fee)
                           (Balance.balance balance) d))).
Proof.
  intros Hfee chain asset config. subst chain asset config.
  unfold_wallet. rewrite Hfee. split.
  - case_answers; repeat constructor.
  - intros api balance polkadot d Hapi Hbal Hcreate Hdec.
    rewrite Hapi. simpl. rewrite Hbal. simpl. rewrite Hcreate. simpl.
    rewrite Hdec. reflexivity.
Qed.

Lemma getFeeBalance_fee_asset_chain_query_witness :
  Forall (fun ev => isContractBalanceQuery ev = false)
         (trace (getFeeBalance Sample.world Sample.wallet "5Grw"
                   SampleFee.routeFeeSameBuilder))
  /\
  getFeeBalance Sample.world Sample.wallet "5Grw"
                SampleFee.routeFeeSameBuilder
  = ([EvGetPolkadotApi "wss://chain-a";
      EvFirstValueFrom
        (SubstrateBalanceObservable (ApiAt "wss://chain-a")
           (CallConfig.mk Substrate "tokens" "accounts" ["5Grw"; "x"]) "x");
      EvPolkadotServiceCreate "chain-a";
      EvGetAssetDecimals "chain-a" Sample.assetY],
     Ok (AssetAmount.mk Sample.assetY 1000 12)).
Proof.
  pose proof (getFeeBalance_fee_asset_chain_query Sample.world Sample.wallet
                "5Grw" SampleFee.routeFeeSameBuilder SampleFee.feeSameBuilder
                eq_refl) as [Hq Hr].
  split; [exact Hq|].
  apply (Hr (ApiAt "wss://chain-a") (Balance.mk "x" 1000)
            (PolkadotService.mk (ApiAt "wss://chain-a") Sample.chainA)
            12%nat); reflexivity.
Defined.

(** C7: on a route that declares no fee asset, [getFeeBalance] issues no
    balance query and returns amount zero for the transfer asset itself,
    with the decimals the directory gives for that asset.  Nothing else is
    defaulted: whenever [getFeeBalance] returns a result, the directory
    lookups behind it succeeded and, if a fee asset is declared, the amount
    is the balance that the chain query returned. *)
Theorem getFeeBalance_zero_fallback_only
    (w : World.t) (this : XcmWallet.t) (address : string)
    (transferConfig : TransferConfig.t) :
  let chain := sourceChain transferConfig in
  let asset := TransferConfig.asset transferConfig in
  let run := getFeeBalance w this address transferConfig in
  (AssetConfig.fee (sourceConfig transferConfig) = None ->
   Forall (fun ev => isBalanceQuery ev = false) (trace run) /\
   forall polkadot d,
     World.create w chain (XcmWallet.configService this) = Ok polkadot ->
     World.getAssetDecimals w polkadot asset = Ok d ->
     outcome run = Ok (AssetAmount.mk asset 0 d))
  /\
  (forall result, outcome run = Ok result ->
     (exists polkadot,
        World.create w chain (XcmWallet.configService this) = Ok polkadot /\
        World.getAssetDecimals w polkadot (AssetAmount.asset result)
        = Ok (AssetAmount.decimals result)) /\
     (forall fee, AssetConfig.fee (sourceConfig transferConfig) = Some fee ->
        exists api balance,
          World.getPolkadotApi w (AnyChain.ws chain) = Ok api /\
          World.firstValueFrom w
            (SubstrateBalanceObservable api
               (FeeAssetConfig.balance fee
                  (balanceParams address transferConfig))
               (Asset.key asset)) = Ok balance /\
          AssetAmount.amount result = Balance.balance balance)).
Proof.
  intros chain asset run. subst chain asset run. split.
  - intros Hfee. unfold_wallet. rewrite Hfee. split.
    + case_answers; repeat constructor.
    + intros polkadot d Hcreate Hdec. simpl. rewrite Hcreate. simpl.
      rewrite Hdec. reflexivity.
  - intros result. unfold_wallet.
    destruct (AssetConfig.fee _) as [fee|] eqn:Hfee; simpl.
    + destruct (World.getPolkadotApi w _) as [api|] eqn:Hapi; simpl;
        [|discriminate].
      destruct (World.firstValueFrom w _) as [balance|] eqn:Hbal; simpl;
        [|discriminate].
      destruct (World.create w _ _) as [polkadot|] eqn:Hcreate; simpl;
        [|discriminate].
      destruct (World.getAssetDecimals w _ _) as [d|] eqn:Hdec; simpl;
        [|discriminate].
      intros [= <-]. simpl. split.
      * exists polkadot. auto.
      * intros fee' [= <-]. exists api, balance. auto.
    + destruct (World.create w _ _) as [polkadot|] eqn:Hcreate; simpl;
        [|discriminate].
      destruct (World.getAssetDecimals w _ _) as [d|] eqn:Hdec; simpl;
        [|discriminate].
      intros [= <-]. simpl. split.
      * exists polkadot. auto.
      * intros fee' [=].
Qed.

Lemma getFeeBalance_zero_fallback_only_witness :
  Forall (fun ev => isBalanceQuery ev = false)
         (trace (getFeeBalance Sample.world Sample.wallet "5Grw"
                   Sample.routeExtrinsic))
  /\
  outcome (getFeeBalance Sample.world Sample.wallet "5Grw"
             Sample.routeExtrinsic)
  = Ok (AssetAmount.mk Sample.assetX 0 12)
  /\
  (exists api balance,
     World.getPolkadotApi Sample.world "wss://chain-a" = Ok api /\
     World.firstValueFrom Sample.world
       (SubstrateBalanceObservable api
          (Sample.systemAccount (BalanceParams.mk "5Grw" "x")) "x")
     = Ok balance /\
     1000 = Balance.balance balance).
Proof.
  pose proof (getFeeBalance_zero_fallback_only Sample.world Sample.wallet
                "5Grw" Sample.routeExtrinsic) as [Hzero _].
  destruct (Hzero eq_refl) as [Hq Hr].
  split; [exact Hq|]. split.
  - apply (Hr (PolkadotService.mk (ApiAt "wss://chain-a") Sample.chainA)
              12%nat); reflexivity.
  - pose proof (getFeeBalance_zero_fallback_only Sample.world Sample.wallet
                  "5Grw" Sample.routeWithFee) as [_ Hprop].
    destruct (Hprop (AssetAmount.mk Sample.assetY 1000 12) eq_refl)
      as [_ Hfee].
    exact (Hfee Sample.feeY eq_refl).
Defined.

(** ** Source fee *)

Lemma buildTransfer_trace (amount : Z) (dstAddress : string)
    (dstFee : AssetAmount.t) (transferConfig : TransferConfig.t)
    (transfer : CallConfig.t) :
  outcome (buildTransfer amount dstAddress dstFee transferConfig)
  = Ok transfer ->
  exists build,
    trace (buildTransfer amount dstAddress dstFee transferConfig) = [build]
    /\ isBuilderCall build = true.
Proof.
  unfold buildTransfer.
  destruct (AssetConfig.extrinsic _); [|destruct (AssetConfig.contract _)];
    simpl; intros H; try discriminate H; eexists; split; reflexivity.
Qed.

(** C6, as stated, fails on its worked example: 21_000_000_000_000_000 wei
    at eighteen decimals are 21_000_000_000 units at twelve decimals, not
    21_000_000. *)
Lemma getSourceFee_example_21_000_000_fails :
  ~ getSourceFee_example_21_000_000.
Proof.
  intros H.
  destruct (H Sample.world Sample.wallet 1000 "5Grw" "0xdest"
              (AssetAmount.mk Sample.assetX 20 12) Sample.routeContract
              (PolkadotService.mk (ApiAt "wss://chain-a") Sample.chainA)
              (Sample.xTokensContract
                 (contractParams 1000 "0xdest"
                    (AssetAmount.mk Sample.assetX 20 12)
                    Sample.routeContract))
              (NewEvmClient Sample.hydration))
    as (result & Hres & Hamount); try reflexivity.
  vm_compute in Hres. injection Hres as <-. discriminate Hamount.
Qed.

(** C6, amended: when the built transfer call is tagged [Evm],
    [getSourceFee] builds the transfer call first and then asks the
    contract-call fee estimator; the raw fee, taken at eighteen decimals, is
    passed through the decimal conversion to the decimal count [d] that the
    result carries, and a conversion that fails makes the method fail.  In
    particular 21_000_000_000_000_000 wei scaled to twelve decimals is
    21_000_000_000. *)
Theorem getSourceFee_evm_scaled
    (w : World.t) (this : XcmWallet.t) (amount : Z)
    (srcAddress dstAddress : string) (dstFee : AssetAmount.t)
    (transferConfig : TransferConfig.t) (polkadot : PolkadotService.t)
    (d : nat) (transfer : CallConfig.t) (evmClient : EvmClient) (raw : Z) :
  let chain := sourceChain transferConfig in
  let run := getSourceFee w this amount srcAddress dstAddress dstFee
                          transferConfig in
  World.create w chain (XcmWallet.configService this) = Ok polkadot ->
  World.getAssetDecimals w polkadot (AssetAmount.asset dstFee) = Ok d ->
  outcome (buildTransfer amount dstAddress dstFee transferConfig)
  = Ok transfer ->
  CallConfig.type transfer = Evm ->
  XcmWallet.evmCliets this !! AnyChain.key chain = Some evmClient ->
  World.xTokensGetFee w transfer (getProvider evmClient) amount = Ok raw ->
  (exists before build,
     isBuilderCall build = true /\
     trace run = (before ++ [build; EvXTokensGetFee transfer amount])%list /\
     Forall (fun ev => isBuilderCall ev = false /\ isFeeEstimate ev = false)
            before) /\
  (forall scaled,
     convertDecimals raw 18 d = Ok scaled ->
     exists result,
       outcome run = Ok result /\
       AssetAmount.amount result = scaled /\
       AssetAmount.decimals result = d) /\
  (forall e, convertDecimals raw 18 d = Err e -> outcome run = Err e) /\
  convertDecimals 21000000000000000 18 12 = Ok 21000000000.
Proof.
  intros chain run Hcreate Hdec Hbuild Htype Hclient Hfee. subst chain run.
  destruct (buildTransfer_trace _ _ _ _ _ Hbuild) as (build & Htrace & Hb).
  unfold getSourceFee, PolkadotService_create, getAssetDecimals, call.
  fold (sourceChain transferConfig).
  destruct (buildTransfer amount dstAddress dstFee transferConfig)
    as [t r] eqn:Hrun.
  simpl in Htrace, Hbuild. subst t r.
  unfold mbind, M_bind, mret, M_ret, sourceChain in *.
  rewrite Hcreate. simpl. rewrite Hdec. simpl.
  rewrite decide_True by exact Htype.
  rewrite Hclient, Hfee.
  split; [|split; [|split]].
  - eexists [_; _], build. split; [exact Hb|].
    destruct (convertDecimals raw 18 d); simpl;
      (split; [reflexivity|]); repeat constructor.
  - intros scaled ->. simpl. eexists. repeat split.
  - intros e ->. reflexivity.
  - reflexivity.
Qed.

Lemma getSourceFee_evm_scaled_witness :
  let run := getSourceFee Sample.world Sample.wallet 1000 "5Grw" "0xdest"
               (AssetAmount.mk Sample.assetX 20 12) Sample.routeContract in
  let transfer :=
    Sample.xTokensContract
      (contractParams 1000 "0xdest" (AssetAmount.mk Sample.assetX 20 12)
                      Sample.routeContract) in
  (exists before build,
     isBuilderCall build = true /\
     trace run = (before ++ [build; EvXTokensGetFee transfer 1000])%list /\
     Forall (fun ev => isBuilderCall ev = false /\ isFeeEstimate ev = false)
            before) /\
  (forall scaled,
     convertDecimals 21000000000000000 18 12 = Ok scaled ->
     exists result,
       outcome run = Ok result /\
       AssetAmount.amount result = scaled /\
       AssetAmount.decimals result = 12%nat) /\
  (forall e, convertDecimals 21000000000000000 18 12 = Err e ->
             outcome run = Err e) /\
  convertDecimals 21000000000000000 18 12 = Ok 21000000000.
Proof.
  apply (getSourceFee_evm_scaled Sample.world Sample.wallet 1000 "5Grw"
           "0xdest" (AssetAmount.mk Sample.assetX 20 12) Sample.routeContract
           (PolkadotService.mk (ApiAt "wss://chain-a") Sample.chainA)
           12%nat
           (Sample.xTokensContract
              (contractParams 1000 "0xdest"
                 (AssetAmount.mk Sample.assetX 20 12) Sample.routeContract))
           (NewEvmClient Sample.hydration) 21000000000000000);
    reflexivity.
Defined.

(** ** Source data *)

Lemma logged_app (t1 t2 : list Event) :
  logged (t1 ++ t2) = (logged t1 ++ logged t2)%list.
Proof.
  induction t1 as [|ev t1 IH]; [reflexivity|].
  destruct ev; simpl; rewrite IH; reflexivity.
Qed.

Lemma getBalance_logs_nothing w this address transferConfig :
  logged (trace (getBalance w this address transferConfig)) = [].
Proof. unfold_wallet. case_answers; reflexivity. Qed.

Lemma getFeeBalance_logs_nothing w this address transferConfig :
  logged (trace (getFeeBalance w this address transferConfig)) = [].
Proof. unfold_wallet. case_answers; reflexivity. Qed.

Lemma getDestinationFee_logs_nothing w this transferConfig :
  logged (trace (getDestinationFee w this transferConfig)) = [].
Proof.
  unfold_wallet. case_answers; try reflexivity.
  destruct (DestinationFeeConfig.amount _); simpl; case_answers; reflexivity.
Qed.

Lemma getSourceFee_logs_nothing w this amount srcAddress dstAddress dstFee
    transferConfig :
  logged (trace (getSourceFee w this amount srcAddress dstAddress dstFee
                              transferConfig)) = [].
Proof.
  unfold_wallet. unfold buildTransfer, call, throw.
  case_answers; try reflexivity;
    destruct (convertDecimals _ _ _); reflexivity.
Qed.

(** C1: for a configured route on which the four computations succeed,
    [getSourceData] computes the balance, the fee balance, the destination
    fee and the source fee (the last one for the whole balance and the
    computed destination fee) and writes the four to the console, in this
    order; its promise then resolves to no value: the record is never
    returned. *)
Theorem getSourceData_computes_but_returns_nothing
    (w : World.t) (this : XcmWallet.t) (srcAddr : string)
    (srcChain : AnyChain.t) (dstAddr : string) (dstChain : AnyChain.t)
    (asset : Asset.t) (transferConfig : TransferConfig.t)
    (balance feeBalance destinationFee sourceFee : AssetAmount.t) :
  IConfigService.build (XcmWallet.configService this) asset srcChain dstChain
  = Ok transferConfig ->
  outcome (getBalance w this srcAddr transferConfig) = Ok balance ->
  outcome (getFeeBalance w this srcAddr transferConfig) = Ok feeBalance ->
  outcome (getDestinationFee w this transferConfig) = Ok destinationFee ->
  outcome (getSourceFee w this (AssetAmount.amount balance) srcAddr dstAddr
                        destinationFee transferConfig) = Ok sourceFee ->
  outcome (getSourceData w this srcAddr srcChain dstAddr dstChain asset)
  = Ok tt /\
  logged (trace (getSourceData w this srcAddr srcChain dstAddr dstChain asset))
  = [balance; feeBalance; destinationFee; sourceFee].
Proof.
  intros Hcfg Hb Hfb Hdf Hsf.
  unfold getSourceData.
  assert (outcome (getTransferConfig this srcChain dstChain asset)
          = Ok transferConfig) as Htc by exact Hcfg.
  rewrite (bind_ok _ _ _ Htc), (bind_ok _ _ _ Hb), (bind_ok _ _ _ Hfb),
    (bind_ok _ _ _ Hdf).
  unfold console_log. rewrite !bind_call_ok.
  cbn [trace outcome fst snd].
  rewrite (bind_ok _ _ _ Hsf), bind_call_ok.
  split; [reflexivity|].
  unfold trace at 1. cbn [fst snd trace outcome].
  rewrite !logged_app.
  rewrite getBalance_logs_nothing, getFeeBalance_logs_nothing,
    getDestinationFee_logs_nothing.
  cbn [logged]. rewrite logged_app, getSourceFee_logs_nothing.
  reflexivity.
Qed.

Lemma getSourceData_computes_but_returns_nothing_witness :
  outcome (getSourceData Sample.world Sample.wallet "5Grw" Sample.chainA
             "0xdest" Sample.chainB Sample.assetX) = Ok tt /\
  logged (trace (getSourceData Sample.world Sample.wallet "5Grw"
                   Sample.chainA "0xdest" Sample.chainB Sample.assetX))
  = [AssetAmount.mk Sample.assetX 1000 12;
     AssetAmount.mk Sample.assetX 0 12;
     AssetAmount.mk Sample.assetX 20000000000000000 18;
     AssetAmount.mk Sample.assetX 7 12].
Proof.
  apply (getSourceData_computes_but_returns_nothing Sample.world
           Sample.wallet "5Grw" Sample.chainA "0xdest" Sample.chainB
           Sample.assetX Sample.routeExtrinsic);
    reflexivity.
Defined.

(** ** Subscription fan-in *)

Lemma mapM_cons {A B} (f : A -> M B) (x : A) (l : list A) :
  mapM f (x :: l) = y ← f x; k ← mapM f l; mret (y :: k).
Proof. reflexivity. Qed.

(** [getEvmClient] calls no collaborator. *)
Lemma getEvmClient_run (this : XcmWallet.t) (chain : AnyChain.t) :
  getEvmClient this chain = ([], outcome (getEvmClient this chain)).
Proof.
  unfold getEvmClient.
  destruct (XcmWallet.evmCliets this !! AnyChain.key chain);
    [reflexivity|]. destruct (decide _); reflexivity.
Qed.

Lemma getEvmClient_own (this : XcmWallet.t) (chain : AnyChain.t)
    (client : EvmClient) :
  XcmWallet.evmCliets this !! AnyChain.key chain = Some client ->
  outcome (getEvmClient this chain) = Ok client.
Proof. intros H. unfold getEvmClient. rewrite H. reflexivity. Qed.

Lemma mapM_subscribeErc20Balance (this : XcmWallet.t) (chain : AnyChain.t)
    (client : EvmClient) (l : list BalanceConfigEntry.t) :
  (l <> [] -> outcome (getEvmClient this chain) = Ok client) ->
  mapM (fun e => subscribeErc20Balance this (BalanceConfigEntry.key e)
                   (BalanceConfigEntry.config e) chain) l
  = ([], Ok ((fun e => Erc20BalanceObservable client
                         (BalanceConfigEntry.config e)
                         (BalanceConfigEntry.key e)) <$> l)).
Proof.
  destruct l as [|e0 l0]; [reflexivity|].
  intros H. specialize (H ltac:(discriminate)).
  generalize (e0 :: l0). clear e0 l0.
  induction l as [|e l IH]; [reflexivity|].
  rewrite mapM_cons, IH. unfold subscribeErc20Balance.
  rewrite getEvmClient_run, H. reflexivity.
Qed.

Lemma Promise_all_subscribeSubstrateBalance (w : World.t)
    (chain : AnyChain.t) (api : ApiPromise)
    (l : list BalanceConfigEntry.t) :
  (l <> [] -> World.getPolkadotApi w (AnyChain.ws chain) = Ok api) ->
  Promise_all ((fun e => subscribeSubstrateBalance w
                           (BalanceConfigEntry.key e)
                           (BalanceConfigEntry.config e) chain) <$> l)
  = ((fun _ => EvGetPolkadotApi (AnyChain.ws chain)) <$> l,
     Ok ((fun e => SubstrateBalanceObservable api
                     (BalanceConfigEntry.config e)
                     (BalanceConfigEntry.key e)) <$> l)).
Proof.
  destruct l as [|e0 l0]; [reflexivity|].
  intros H. specialize (H ltac:(discriminate)).
  generalize (e0 :: l0). clear e0 l0.
  induction l as [|e l IH]; [reflexivity|].
  rewrite !fmap_cons. cbn [Promise_all]. rewrite IH.
  unfold subscribeSubstrateBalance, getPolkadotApi, call.
  rewrite H. reflexivity.
Qed.

Lemma filter_nonempty_Exists {A} (P : A -> Prop) `{!forall x, Decision (P x)}
    (l : list A) :
  filter P l <> [] -> Exists P l.
Proof.
  induction l as [|x l IH]; [intros Hne; contradiction Hne; reflexivity|].
  rewrite filter_cons. destruct (decide (P x)) as [Hx|Hx].
  - intros _. left. exact Hx.
  - intros Hne. right. auto.
Qed.

Lemma filter_either_Permutation (l : list BalanceConfigEntry.t) :
  filter (fun e => isEvmEntry e \/ isSubstrateEntry e) l
  ≡ₚ filter isEvmEntry l ++ filter isSubstrateEntry l.
Proof.
  induction l as [|e l IH]; [reflexivity|].
  rewrite !filter_cons.
  destruct (decide (isEvmEntry e)) as [He|He];
    destruct (decide (isSubstrateEntry e)) as [Hs|Hs].
  - unfold isEvmEntry, isSubstrateEntry in *. congruence.
  - rewrite decide_True by tauto. simpl. rewrite IH. reflexivity.
  - rewrite decide_True by tauto. rewrite IH.
    apply Permutation_middle.
  - rewrite decide_False by tauto. exact IH.
Qed.

Lemma subscriptionOf_evm client api (l : list BalanceConfigEntry.t) :
  subscriptionOf client api <$> filter isEvmEntry l
  = (fun e => Erc20BalanceObservable client (BalanceConfigEntry.config e)
                (BalanceConfigEntry.key e)) <$> filter isEvmEntry l.
Proof.
  apply Forall_fmap_ext_1, Forall_forall. intros e He.
  apply list_elem_of_filter in He as [He _].
  unfold subscriptionOf. rewrite decide_True by exact He. reflexivity.
Qed.

Lemma subscriptionOf_substrate client api (l : list BalanceConfigEntry.t) :
  subscriptionOf client api <$> filter isSubstrateEntry l
  = (fun e => SubstrateBalanceObservable api (BalanceConfigEntry.config e)
                (BalanceConfigEntry.key e)) <$> filter isSubstrateEntry l.
Proof.
  apply Forall_fmap_ext_1, Forall_forall. intros e He.
  apply list_elem_of_filter in He as [He _].
  unfold subscriptionOf. rewrite decide_False; [reflexivity|].
  unfold isEvmEntry, isSubstrateEntry in *. congruence.
Qed.

Lemma Exists_filter_nonempty {A} (P : A -> Prop) `{!forall x, Decision (P x)}
    (l : list A) :
  Exists P l -> filter P l <> [].
Proof.
  intros Hex Hnil. apply Exists_exists in Hex as (x & Hin & Hx).
  assert (x ∈ filter P l) as Hmem by (apply list_elem_of_filter; auto).
  rewrite Hnil in Hmem. inversion Hmem.
Qed.

Lemma mapM_subscribeErc20Balance_fails (this : XcmWallet.t)
    (chain : AnyChain.t) (err : error) (l : list BalanceConfigEntry.t) :
  outcome (getEvmClient this chain) = Err err ->
  l <> [] ->
  mapM (fun e => subscribeErc20Balance this (BalanceConfigEntry.key e)
                   (BalanceConfigEntry.config e) chain) l
  = ([], Err err).
Proof.
  intros Hnone Hne. destruct l as [|e l]; [contradiction|].
  rewrite mapM_cons. unfold subscribeErc20Balance.
  rewrite getEvmClient_run, Hnone. reflexivity.
Qed.

Lemma Promise_all_subscribeSubstrateBalance_fails (w : World.t)
    (chain : AnyChain.t) (err : error) (l : list BalanceConfigEntry.t) :
  World.getPolkadotApi w (AnyChain.ws chain) = Err err ->
  l <> [] ->
  outcome (Promise_all
             ((fun e => subscribeSubstrateBalance w
                          (BalanceConfigEntry.key e)
                          (BalanceConfigEntry.config e) chain) <$> l))
  = Err err.
Proof.
  intros Herr Hne. destruct l as [|e l]; [contradiction|].
  rewrite fmap_cons. cbn [Promise_all].
  unfold subscribeSubstrateBalance at 1, getPolkadotApi, call.
  rewrite Herr. cbn. destruct (Promise_all _). reflexivity.
Qed.

(** What [subscribeBalance] returns once the clients it needs are there. *)
Lemma subscribeBalance_ok (w : World.t) (this : XcmWallet.t)
    (address : string) (chain : AnyChain.t) (chainConfig : ChainConfig.t)
    (client : EvmClient) (api : ApiPromise) :
  let configs := getBalanceConfigs address chain chainConfig in
  (Exists isEvmEntry configs ->
   outcome (getEvmClient this chain) = Ok client) ->
  (Exists isSubstrateEntry configs ->
   World.getPolkadotApi w (AnyChain.ws chain) = Ok api) ->
  outcome (subscribeBalance w this address chain chainConfig)
  = Ok (merge ((subscriptionOf client api <$> filter isEvmEntry configs)
               ++ (subscriptionOf client api
                   <$> filter isSubstrateEntry configs))).
Proof.
  intros configs Hevm Hsub.
  unfold subscribeBalance. fold configs.
  change (fun e => CallConfig.type (BalanceConfigEntry.config e) = Evm)
    with isEvmEntry.
  change (fun e => CallConfig.type (BalanceConfigEntry.config e) = Substrate)
    with isSubstrateEntry.
  rewrite (mapM_subscribeErc20Balance this chain client)
    by (intros Hne; apply Hevm; eapply filter_nonempty_Exists; exact Hne).
  rewrite (Promise_all_subscribeSubstrateBalance w chain api)
    by (intros Hne; apply Hsub; eapply filter_nonempty_Exists; exact Hne).
  rewrite subscriptionOf_evm, subscriptionOf_substrate. reflexivity.
Qed.

(** A returned stream means that every client that was needed was there. *)
Lemma subscribeBalance_ok_inv (w : World.t) (this : XcmWallet.t)
    (address : string) (chain : AnyChain.t) (chainConfig : ChainConfig.t)
    (stream : Observable) :
  let configs := getBalanceConfigs address chain chainConfig in
  outcome (subscribeBalance w this address chain chainConfig) = Ok stream ->
  exists client api,
    (Exists isEvmEntry configs ->
     outcome (getEvmClient this chain) = Ok client) /\
    (Exists isSubstrateEntry configs ->
     World.getPolkadotApi w (AnyChain.ws chain) = Ok api).
Proof.
  intros configs Hrun.
  unfold subscribeBalance in Hrun. fold configs in Hrun.
  assert (forall client,
            (Exists isEvmEntry configs ->
             outcome (getEvmClient this chain) = Ok client) ->
            exists api,
              Exists isSubstrateEntry configs ->
              World.getPolkadotApi w (AnyChain.ws chain) = Ok api)
    as Hapis.
  { intros client Hevm.
    destruct (World.getPolkadotApi w (AnyChain.ws chain))
      as [api|err] eqn:Hapi; [exists api; auto|].
    exists (ApiAt ""). intros Hex. exfalso.
    apply (Exists_filter_nonempty isSubstrateEntry) in Hex.
    rewrite (mapM_subscribeErc20Balance this chain client) in Hrun
      by (intros Hne; apply Hevm;
          eapply (filter_nonempty_Exists isEvmEntry); exact Hne).
    rewrite bind_pure in Hrun.
    match type of Hrun with
    | context [Promise_all (_ <$> ?l)] =>
        pose proof (Promise_all_subscribeSubstrateBalance_fails w chain err
                      l Hapi Hex) as Hfail
    end.
    rewrite (bind_err _ _ _ Hfail) in Hrun. discriminate Hrun. }
  destruct (outcome (getEvmClient this chain)) as [client|err] eqn:Hclient.
  - destruct (Hapis client (fun _ => eq_refl)) as [api Hapi].
    exists client, api. auto.
  - assert (~ Exists isEvmEntry configs) as Hno.
    { intros Hex. apply (Exists_filter_nonempty isEvmEntry) in Hex.
      match type of Hrun with
      | context [mapM _ ?l] =>
          pose proof (mapM_subscribeErc20Balance_fails this chain err l
                        Hclient Hex) as He
      end.
      rewrite He in Hrun. discriminate Hrun. }
    set (client := NewEvmClient {| id := 0; name := "" |}).
    destruct (Hapis client (fun Hex => False_ind _ (Hno Hex))) as [api Hapi].
    exists client, api. split; [intros Hex; contradiction | exact Hapi].
Qed.

Lemma subscriptions_Permutation client api
    (configs : list BalanceConfigEntry.t) :
  ((subscriptionOf client api <$> filter isEvmEntry configs)
   ++ (subscriptionOf client api <$> filter isSubstrateEntry configs))
  ≡ₚ (subscriptionOf client api
      <$> filter (fun e => isEvmEntry e \/ isSubstrateEntry e) configs).
Proof.
  rewrite <- fmap_app. apply fmap_Permutation. symmetry.
  apply filter_either_Permutation.
Qed.

Lemma getBalanceConfigs_entries address chain chainConfig :
  getBalanceConfigs address chain chainConfig
  = entryOf address chain <$> ChainConfig.getAssetsConfigs chainConfig.
Proof. reflexivity. Qed.

Lemma filter_entryOf (P : BalanceConfigEntry.t -> Prop)
    (Q : AssetConfig.t -> Prop)
    `{!forall e, Decision (P e)} `{!forall a, Decision (Q a)}
    address chain (l : list AssetConfig.t) :
  (forall a, P (entryOf address chain a) <-> Q a) ->
  filter P (entryOf address chain <$> l)
  = entryOf address chain <$> filter Q l.
Proof.
  intros HPQ. induction l as [|a l IH]; [reflexivity|].
  rewrite fmap_cons, !filter_cons, IH.
  destruct (decide (P (entryOf address chain a))) as [Hp|Hp];
    destruct (decide (Q a)) as [Hq|Hq]; try reflexivity;
    exfalso; apply HPQ in Hp || apply Hp, HPQ; auto.
Qed.

Lemma Exists_entryOf (P : BalanceConfigEntry.t -> Prop)
    (Q : AssetConfig.t -> Prop) address chain (l : list AssetConfig.t) :
  (forall a, P (entryOf address chain a) <-> Q a) ->
  Exists P (entryOf address chain <$> l) -> Exists Q l.
Proof.
  intros HPQ Hex. apply Exists_exists in Hex as (e & Hin & He).
  apply list_elem_of_fmap in Hin as (a & -> & Ha).
  apply Exists_exists. exists a. split; [exact Ha | apply HPQ, He].
Qed.

Lemma subscriptionOf_entryOf client api address chain
    (l : list AssetConfig.t) :
  subscriptionOf client api <$> (entryOf address chain <$> l)
  = assetSubscription client api address chain <$> l.
Proof.
  rewrite <- list_fmap_compose.
  apply Forall_fmap_ext_1, Forall_forall. intros a _.
  unfold compose, subscriptionOf, assetSubscription, entryOf, isEvmEntry,
    isEvmAsset. simpl.
  destruct (decide _); reflexivity.
Qed.

(** C10: every stream that [subscribeBalance] returns merges exactly one
    subscription for each asset of the chain's configuration whose built
    balance configuration is tagged [Evm] or [Substrate], the contract
    subscriptions first and the chain subscriptions after them; an asset
    whose configuration carries any other tag contributes no subscription
    and no error.  A stream is returned as soon as the clients are there:
    an EVM client if some asset is tagged [Evm], a chain client if some is
    tagged [Substrate]. *)
Theorem subscribeBalance_one_subscription_per_tagged_asset
    (w : World.t) (this : XcmWallet.t) (address : string)
    (chain : AnyChain.t) (chainConfig : ChainConfig.t) :
  let assets := ChainConfig.getAssetsConfigs chainConfig in
  let tagged :=
    filter (fun a => isEvmAsset address chain a
                     \/ isSubstrateAsset address chain a) assets in
  (forall client api,
     (Exists (isEvmAsset address chain) assets ->
      outcome (getEvmClient this chain) = Ok client) ->
     (Exists (isSubstrateAsset address chain) assets ->
      World.getPolkadotApi w (AnyChain.ws chain) = Ok api) ->
     outcome (subscribeBalance w this address chain chainConfig)
     = Ok (merge
             ((assetSubscription client api address chain
               <$> filter (isEvmAsset address chain) assets)
              ++ (assetSubscription client api address chain
                  <$> filter (isSubstrateAsset address chain) assets))))
  /\
  (forall stream,
     outcome (subscribeBalance w this address chain chainConfig) = Ok stream ->
     exists client api subscriptions,
       stream = merge subscriptions /\
       (subscriptions
        ≡ₚ (assetSubscription client api address chain <$> tagged)) /\
       length subscriptions = length tagged).
Proof.
  intros assets tagged.
  assert (forall client api,
            (Exists (isEvmAsset address chain) assets ->
             outcome (getEvmClient this chain) = Ok client) ->
            (Exists (isSubstrateAsset address chain) assets ->
             World.getPolkadotApi w (AnyChain.ws chain) = Ok api) ->
            outcome (subscribeBalance w this address chain chainConfig)
            = Ok (merge
                    ((assetSubscription client api address chain
                      <$> filter (isEvmAsset address chain) assets)
                     ++ (assetSubscription client api address chain
                         <$> filter (isSubstrateAsset address chain)
                               assets)))) as Hforward.
  { intros client api Hevm Hsub.
    rewrite (subscribeBalance_ok w this address chain chainConfig client api).
    - rewrite getBalanceConfigs_entries. fold assets.
      rewrite (filter_entryOf isEvmEntry (isEvmAsset address chain))
        by reflexivity.
      rewrite (filter_entryOf isSubstrateEntry (isSubstrateAsset address chain))
        by reflexivity.
      rewrite !subscriptionOf_entryOf. reflexivity.
    - intros Hex. apply Hevm. rewrite getBalanceConfigs_entries in Hex.
      apply (Exists_entryOf isEvmEntry (isEvmAsset address chain)) in Hex;
        [exact Hex | reflexivity].
    - intros Hex. apply Hsub. rewrite getBalanceConfigs_entries in Hex.
      apply (Exists_entryOf isSubstrateEntry (isSubstrateAsset address chain))
        in Hex; [exact Hex | reflexivity]. }
  split; [exact Hforward|].
  intros stream Hrun.
  destruct (subscribeBalance_ok_inv w this address chain chainConfig
              stream Hrun) as (client & api & Hevm & Hsub).
  rewrite getBalanceConfigs_entries in Hevm, Hsub. fold assets in Hevm, Hsub.
  assert (Exists (isEvmAsset address chain) assets ->
          outcome (getEvmClient this chain) = Ok client) as Hevm'.
  { intros Hex. apply Hevm. apply Exists_exists in Hex as (a & Ha & He).
    apply Exists_exists. exists (entryOf address chain a).
    split; [apply list_elem_of_fmap_2, Ha | exact He]. }
  assert (Exists (isSubstrateAsset address chain) assets ->
          World.getPolkadotApi w (AnyChain.ws chain) = Ok api) as Hsub'.
  { intros Hex. apply Hsub. apply Exists_exists in Hex as (a & Ha & He).
    apply Exists_exists. exists (entryOf address chain a).
    split; [apply list_elem_of_fmap_2, Ha | exact He]. }
  pose proof (Hforward client api Hevm' Hsub') as Hok.
  rewrite Hrun in Hok. injection Hok as ->.
  exists client, api. eexists. split; [reflexivity|].
  assert (((assetSubscription client api address chain
            <$> filter (isEvmAsset address chain) assets)
           ++ (assetSubscription client api address chain
               <$> filter (isSubstrateAsset address chain) assets))
          ≡ₚ (assetSubscription client api address chain <$> tagged))
    as Hperm.
  { rewrite <- fmap_app. apply fmap_Permutation. unfold tagged.
    clear. induction assets as [|a l IH]; [reflexivity|].
    rewrite !filter_cons.
    destruct (decide (isEvmAsset address chain a)) as [He|He];
      destruct (decide (isSubstrateAsset address chain a)) as [Hs|Hs].
    - unfold isEvmAsset, isSubstrateAsset in *. congruence.
    - rewrite decide_True by tauto. simpl. rewrite IH. reflexivity.
    - rewrite decide_True by tauto. rewrite <- IH.
      symmetry. apply Permutation_middle.
    - rewrite decide_False by tauto. exact IH. }
  split; [exact Hperm|].
  rewrite Hperm, length_fmap. reflexivity.
Qed.

Lemma subscribeBalance_one_subscription_per_tagged_asset_witness :
  outcome (subscribeBalance Sample.world Sample.wallet "0xabc"
             Sample.chainB SampleChain.chainConfig)
  = Ok (merge
          [Erc20BalanceObservable (NewEvmClient Sample.moonbeam)
             (Sample.erc20BalanceOf (BalanceParams.mk "0xabc" "y")) "y";
           SubstrateBalanceObservable (ApiAt "wss://chain-b")
             (Sample.tokensAccounts (BalanceParams.mk "0xabc" "x")) "x"])
  /\
  (exists client api subscriptions,
     merge
       [Erc20BalanceObservable (NewEvmClient Sample.moonbeam)
          (Sample.erc20BalanceOf (BalanceParams.mk "0xabc" "y")) "y";
        SubstrateBalanceObservable (ApiAt "wss://chain-b")
          (Sample.tokensAccounts (BalanceParams.mk "0xabc" "x")) "x"]
     = merge subscriptions /\
     (subscriptions
      ≡ₚ (assetSubscription client api "0xabc" Sample.chainB
          <$> filter (fun a => isEvmAsset "0xabc" Sample.chainB a
                               \/ isSubstrateAsset "0xabc" Sample.chainB a)
                (ChainConfig.getAssetsConfigs SampleChain.chainConfig))) /\
     length subscriptions = 2%nat).
Proof.
  pose proof (subscribeBalance_one_subscription_per_tagged_asset
                Sample.world Sample.wallet "0xabc" Sample.chainB
                SampleChain.chainConfig) as [Hok Hinv].
  split.
  - apply (Hok (NewEvmClient Sample.moonbeam) (ApiAt "wss://chain-b"));
      reflexivity.
  - apply Hinv. reflexivity.
Defined.

(** * Further properties of the wallet *)

(** ** Construction and clients *)

(** X1: a wallet built by the constructor from chains none of which is
    filed under [__proto__] holds a client exactly for the keys it was
    given.  [getEvmClient] returns the client that wraps the chain under
    the key of the chain; for a key without a client it throws, unless the
    key is a property name that every object inherits: then it returns the
    inherited value and does not throw. *)
Theorem new_getEvmClient
    (configService : IConfigService.t) (evmChains : gmap string ViemChain)
    (chain : AnyChain.t) :
  let this := XcmWallet.new configService evmChains in
  evmChains !! "__proto__" = None ->
  (forall viem,
     evmChains !! AnyChain.key chain = Some viem ->
     getEvmClient this chain = ([], Ok (NewEvmClient viem))) /\
  (evmChains !! AnyChain.key chain = None ->
   AnyChain.key chain ∉ inheritedKeys ->
   getEvmClient this chain
   = ([], Err (Error ("No evm configuration found for "
                      +:+ dquote +:+ "[object Object]" +:+ dquote)))) /\
  (evmChains !! AnyChain.key chain = None ->
   AnyChain.key chain ∈ inheritedKeys ->
   getEvmClient this chain
   = ([], Ok (InheritedProperty (AnyChain.key chain)))) /\
  dom (XcmWallet.evmCliets this) = dom (XcmWallet.evmChains this).
Proof.
  intros this _. subst this. unfold getEvmClient, XcmWallet.new. simpl.
  rewrite lookup_fmap.
  split; [|split; [|split]].
  - intros viem ->. reflexivity.
  - intros -> Hkey. simpl. rewrite decide_False by exact Hkey. reflexivity.
  - intros -> Hkey. simpl. rewrite decide_True by exact Hkey. reflexivity.
  - apply dom_fmap_L.
Qed.

Lemma new_getEvmClient_witness :
  getEvmClient Sample.wallet Sample.chainB
  = ([], Ok (NewEvmClient Sample.moonbeam)) /\
  getEvmClient Sample.walletNoEvm Sample.chainB
  = ([], Err (Error ("No evm configuration found for "
                     +:+ dquote +:+ "[object Object]" +:+ dquote))) /\
  getEvmClient Sample.walletNoEvm (Sample.chainOf "toString")
  = ([], Ok (InheritedProperty "toString")).
Proof.
  split; [|split].
  - refine (proj1 (new_getEvmClient Sample.configService
                     {[ "chain-a" := Sample.hydration;
                        "chain-b" := Sample.moonbeam ]} Sample.chainB _)
              Sample.moonbeam _); reflexivity.
  - refine (proj1 (proj2 (new_getEvmClient Sample.configService ∅
                            Sample.chainB _)) _ _);
      [reflexivity | reflexivity |].
    vm_compute. intros H.
    repeat (inversion H as [|? ? ? H']; clear H; rename H' into H).
  - refine (proj1 (proj2 (proj2 (new_getEvmClient Sample.configService ∅
                                   (Sample.chainOf "toString") _))) _ _);
      [reflexivity | reflexivity |].
    vm_compute. do 8 right. left.
Defined.

(** ** Balance: failures *)

Lemma getBalance_unfold w this address transferConfig :
  getBalance w this address transferConfig
  = (balance ← balanceResolver w this address transferConfig;
     polkadot ← PolkadotService_create w this (sourceChain transferConfig);
     decimals ← getAssetDecimals w polkadot
                  (TransferConfig.asset transferConfig);
     mret (AssetAmount.fromAsset (TransferConfig.asset transferConfig)
                                 (Balance.balance balance) decimals)).
Proof. reflexivity. Qed.

Lemma balanceResolver_no_directory_lookup w this address transferConfig :
  Forall (fun ev => isDirectoryLookup ev = false)
         (trace (balanceResolver w this address transferConfig)).
Proof.
  unfold balanceResolver. unfold_wallet. case_answers; repeat constructor.
Qed.

(** X2: [getBalance] returns a result only when the resolver, the creation
    of the chain service for the source chain and the decimal lookup all
    succeeded; the result is then the transfer asset with the resolver's
    raw balance and the decimals that were looked up. *)
Theorem getBalance_ok_inv
    (w : World.t) (this : XcmWallet.t) (address : string)
    (transferConfig : TransferConfig.t) (result : AssetAmount.t) :
  outcome (getBalance w this address transferConfig) = Ok result ->
  exists balance polkadot,
    outcome (balanceResolver w this address transferConfig) = Ok balance /\
    World.create w (sourceChain transferConfig)
                 (XcmWallet.configService this) = Ok polkadot /\
    World.getAssetDecimals w polkadot (TransferConfig.asset transferConfig)
    = Ok (AssetAmount.decimals result) /\
    result = AssetAmount.mk (TransferConfig.asset transferConfig)
                            (Balance.balance balance)
                            (AssetAmount.decimals result).
Proof.
  rewrite getBalance_unfold.
  destruct (balanceResolver w this address transferConfig)
    as [t [balance|e]] eqn:Hres; [|discriminate].
  unfold PolkadotService_create, getAssetDecimals, call.
  unfold mbind, M_bind, mret, M_ret. simpl.
  destruct (World.create w _ _) as [polkadot|] eqn:Hcreate; simpl;
    [|discriminate].
  destruct (World.getAssetDecimals w _ _) as [d|] eqn:Hdec; simpl;
    [|discriminate].
  intros [= <-]. exists balance, polkadot. simpl. auto.
Qed.

Lemma getBalance_ok_inv_witness :
  exists balance polkadot,
    outcome (balanceResolver Sample.world Sample.wallet "5Grw"
               Sample.routeExtrinsic) = Ok balance /\
    World.create Sample.world Sample.chainA Sample.configService
    = Ok polkadot /\
    World.getAssetDecimals Sample.world polkadot Sample.assetX = Ok 12%nat /\
    AssetAmount.mk Sample.assetX 1000 12
    = AssetAmount.mk Sample.assetX (Balance.balance balance) 12.
Proof.
  apply (getBalance_ok_inv Sample.world Sample.wallet "5Grw"
           Sample.routeExtrinsic (AssetAmount.mk Sample.assetX 1000 12)).
  reflexivity.
Defined.

(** X3: when the resolver fails, [getBalance] fails with the same error
    after the resolver's calls only: the directory is not consulted, neither
    for a chain service nor for decimals. *)
Theorem getBalance_resolver_failure
    (w : World.t) (this : XcmWallet.t) (address : string)
    (transferConfig : TransferConfig.t) (e : error) :
  outcome (balanceResolver w this address transferConfig) = Err e ->
  getBalance w this address transferConfig
  = (trace (balanceResolver w this address transferConfig), Err e) /\
  Forall (fun ev => isDirectoryLookup ev = false)
         (trace (getBalance w this address transferConfig)).
Proof.
  intros Hres. rewrite getBalance_unfold, (bind_err _ _ _ Hres).
  split; [reflexivity|]. apply balanceResolver_no_directory_lookup.
Qed.

Lemma getBalance_resolver_failure_witness :
  getBalance SampleFee.offline Sample.wallet "5Grw" Sample.routeExtrinsic
  = ([EvGetPolkadotApi "wss://chain-a"], Err (Rejected "disconnected")) /\
  Forall (fun ev => isDirectoryLookup ev = false)
         (trace (getBalance SampleFee.offline Sample.wallet "5Grw"
                   Sample.routeExtrinsic)).
Proof.
  apply (getBalance_resolver_failure SampleFee.offline Sample.wallet "5Grw"
           Sample.routeExtrinsic (Rejected "disconnected")).
  reflexivity.
Defined.

(** X4: a route whose balance configuration is tagged [Evm], on a chain for
    which the wallet has no EVM client and whose key is not a property name
    that every object inherits, makes [getBalance] fail with the "No evm
    configuration found" error before any collaborator is called. *)
Theorem getBalance_evm_without_client
    (w : World.t) (this : XcmWallet.t) (address : string)
    (transferConfig : TransferConfig.t) :
  CallConfig.type (balanceConfig address transferConfig) = Evm ->
  XcmWallet.evmCliets this !! AnyChain.key (sourceChain transferConfig)
  = None ->
  AnyChain.key (sourceChain transferConfig) ∉ inheritedKeys ->
  getBalance w this address transferConfig
  = ([], Err (Error ("No evm configuration found for "
                     +:+ dquote +:+ "[object Object]" +:+ dquote))).
Proof.
  intros Htype Hnone Hkey. unfold_wallet. rewrite Htype. simpl.
  rewrite Hnone. rewrite decide_False by exact Hkey. reflexivity.
Qed.

Lemma chain_b_not_inherited : "chain-b" ∉ inheritedKeys.
Proof.
  vm_compute. intros H.
  repeat (inversion H as [|? ? ? H']; clear H; rename H' into H).
Qed.

Lemma getBalance_evm_without_client_witness :
  getBalance Sample.world Sample.walletNoEvm "0xabc" Sample.routeFromEvm
  = ([], Err (Error ("No evm configuration found for "
                     +:+ dquote +:+ "[object Object]" +:+ dquote))).
Proof.
  apply (getBalance_evm_without_client Sample.world Sample.walletNoEvm
           "0xabc" Sample.routeFromEvm);
    [reflexivity | reflexivity | exact chain_b_not_inherited].
Defined.

(** ** Fee balance against balance *)

(** X5: when the fee configuration builds the same balance configuration as
    the asset itself and that configuration is not tagged [Evm],
    [getFeeBalance] issues the very balance queries that [getBalance]
    issues, whatever the collaborators answer: chain queries with that
    configuration, keyed by the transfer asset.  What [getFeeBalance] then
    returns is labelled with the fee asset all the same. *)
Theorem getFeeBalance_same_query_as_getBalance
    (w : World.t) (this : XcmWallet.t) (address : string)
    (transferConfig : TransferConfig.t) (fee : FeeAssetConfig.t) :
  AssetConfig.fee (sourceConfig transferConfig) = Some fee ->
  FeeAssetConfig.balance fee (balanceParams address transferConfig)
  = balanceConfig address transferConfig ->
  CallConfig.type (balanceConfig address transferConfig) <> Evm ->
  List.filter isBalanceQuery
    (trace (getFeeBalance w this address transferConfig))
  = List.filter isBalanceQuery
      (trace (getBalance w this address transferConfig)) /\
  Forall (fun ev =>
            forall stream, ev = EvFirstValueFrom stream ->
            exists api,
              stream = SubstrateBalanceObservable api
                         (balanceConfig address transferConfig)
                         (Asset.key (TransferConfig.asset transferConfig)))
         (trace (getFeeBalance w this address transferConfig)) /\
  (forall feeBalance,
     outcome (getFeeBalance w this address transferConfig) = Ok feeBalance ->
     AssetAmount.asset feeBalance = FeeAssetConfig.asset fee).
Proof.
  intros Hfee Hsame Htype.
  rewrite getBalance_unfold. unfold balanceResolver.
  rewrite decide_False by exact Htype.
  unfold getFeeBalance.
  fold (sourceChain transferConfig) (sourceConfig transferConfig).
  fold (balanceParams address transferConfig).
  rewrite Hfee, Hsame.
  unfold getSubstrateBalance, getPolkadotApi, PolkadotService_create,
    getAssetDecimals, call.
  unfold mbind, M_bind, mret, M_ret.
  destruct (World.getPolkadotApi w _) as [api|]; simpl.
  2:{ repeat split; try discriminate. repeat constructor. discriminate. }
  destruct (World.firstValueFrom w _) as [balance|]; simpl.
  2:{ repeat split; try discriminate. repeat constructor; try discriminate.
      intros stream [= <-]. eauto. }
  destruct (World.create w _ _) as [polkadot|]; simpl.
  2:{ repeat split; try discriminate. repeat constructor; try discriminate.
      intros stream [= <-]. eauto. }
  destruct (World.getAssetDecimals w polkadot (TransferConfig.asset _));
    destruct (World.getAssetDecimals w polkadot (FeeAssetConfig.asset _));
    simpl; (split; [reflexivity|]);
    (split; [repeat constructor; try discriminate;
             intros stream [= <-]; eauto|]);
    intros feeBalance H; try discriminate H;
    injection H as <-; reflexivity.
Qed.

Lemma getFeeBalance_same_query_as_getBalance_witness :
  List.filter isBalanceQuery
    (trace (getFeeBalance Sample.world Sample.wallet "5Grw"
              SampleFee.routeFeeSameBuilder))
  = List.filter isBalanceQuery
      (trace (getBalance Sample.world Sample.wallet "5Grw"
                SampleFee.routeFeeSameBuilder)) /\
  Forall (fun ev =>
            forall stream, ev = EvFirstValueFrom stream ->
            exists api,
              stream = SubstrateBalanceObservable api
                         (Sample.tokensAccounts
                            (BalanceParams.mk "5Grw" "x")) "x")
         (trace (getFeeBalance Sample.world Sample.wallet "5Grw"
                   SampleFee.routeFeeSameBuilder)) /\
  (forall feeBalance,
     outcome (getFeeBalance Sample.world Sample.wallet "5Grw"
                SampleFee.routeFeeSameBuilder) = Ok feeBalance ->
     AssetAmount.asset feeBalance = Sample.assetY).
Proof.
  apply (getFeeBalance_same_query_as_getBalance Sample.world Sample.wallet
           "5Grw" SampleFee.routeFeeSameBuilder SampleFee.feeSameBuilder);
    solve [reflexivity | discriminate].
Defined.

(** ** Destination fee *)

(** X6: every result of [getDestinationFee] carries the asset of the route's
    destination-fee configuration and the decimals that the directory gives
    for it on the destination chain; its amount is [toBigInt] of the
    configured number at those decimals when the amount is a finite number,
    and otherwise the unscaled answer of the fee call built with the
    service's own client and asset id.  A number that is not finite never
    yields a result. *)
Theorem getDestinationFee_ok_inv
    (w : World.t) (this : XcmWallet.t) (transferConfig : TransferConfig.t)
    (result : AssetAmount.t) :
  let feeCfg := AssetConfig.destinationFee (sourceConfig transferConfig) in
  let asset := DestinationFeeConfig.asset feeCfg in
  outcome (getDestinationFee w this transferConfig) = Ok result ->
  exists polkadot,
    World.create w (destinationChain transferConfig)
                 (XcmWallet.configService this) = Ok polkadot /\
    World.getAssetDecimals w polkadot asset
    = Ok (AssetAmount.decimals result) /\
    AssetAmount.asset result = asset /\
    match DestinationFeeConfig.amount feeCfg with
    | FiniteNumber n =>
        AssetAmount.amount result
        = World.toBigInt w n (AssetAmount.decimals result)
    | NonFiniteNumber => False
    | DynamicFee builder =>
        World.feeConfigCall w
          (builder (FeeParams.mk (PolkadotService.api polkadot)
                      (AnyChain.getAssetId (PolkadotService.chain polkadot)
                                           asset)))
        = Ok (AssetAmount.amount result)
    end.
Proof.
  intros feeCfg asset. subst feeCfg asset. unfold_wallet.
  destruct (World.create w _ _) as [polkadot|] eqn:Hcreate; simpl;
    [|discriminate].
  destruct (World.getAssetDecimals w _ _) as [d|] eqn:Hdec; simpl;
    [|discriminate].
  destruct (DestinationFeeConfig.amount _) as [n| |builder]; simpl.
  - intros [= <-]. exists polkadot. simpl. auto.
  - discriminate.
  - destruct (World.feeConfigCall w _) as [feeBalance|] eqn:Hcall; simpl;
      [|discriminate].
    intros [= <-]. exists polkadot. simpl. auto.
Qed.

Lemma getDestinationFee_ok_inv_witness :
  exists polkadot,
    World.create Sample.world Sample.chainB Sample.configService
    = Ok polkadot /\
    World.getAssetDecimals Sample.world polkadot Sample.assetY = Ok 18%nat /\
    Sample.assetY = Sample.assetY /\
    World.feeConfigCall Sample.world
      (SampleDynamic.assetHubFee
         (FeeParams.mk (PolkadotService.api polkadot)
            (AnyChain.getAssetId (PolkadotService.chain polkadot)
                                 Sample.assetY)))
    = Ok 5.
Proof.
  apply (getDestinationFee_ok_inv Sample.world Sample.wallet
           SampleDynamic.routeDynamicFee
           (AssetAmount.mk Sample.assetY 5 18)).
  reflexivity.
Defined.

(** X7: whatever the collaborators answer, [getDestinationFee] asks for no
    balance, calls no transfer builder and no fee estimator; it makes at
    most one fee call, and none at all when the configured amount is a
    number. *)
Theorem getDestinationFee_calls
    (w : World.t) (this : XcmWallet.t) (transferConfig : TransferConfig.t) :
  let run := getDestinationFee w this transferConfig in
  let amount :=
    DestinationFeeConfig.amount
      (AssetConfig.destinationFee (sourceConfig transferConfig)) in
  Forall (fun ev => isBalanceQuery ev = false /\ isBuilderCall ev = false /\
                    isFeeEstimate ev = false) (trace run) /\
  (length (List.filter isFeeConfigCall (trace run)) <= 1)%nat /\
  ((forall builder, amount <> DynamicFee builder) ->
   List.filter isFeeConfigCall (trace run) = []).
Proof.
  intros run amount. subst run amount. unfold_wallet.
  destruct (World.create w _ _) as [polkadot|]; simpl.
  2:{ repeat split; auto; repeat constructor. }
  destruct (World.getAssetDecimals w _ _) as [d|]; simpl.
  2:{ repeat split; auto; repeat constructor. }
  destruct (DestinationFeeConfig.amount _) as [n| |builder]; simpl.
  - repeat split; auto; repeat constructor.
  - repeat split; auto; repeat constructor.
  - destruct (World.feeConfigCall w _); simpl;
      (split; [repeat constructor|]); (split; [lia|]);
      intros Hno; exfalso; exact (Hno builder eq_refl).
Qed.

Lemma getDestinationFee_calls_witness :
  List.filter isFeeConfigCall
    (trace (getDestinationFee Sample.world Sample.wallet
              Sample.routeExtrinsic)) = [].
Proof.
  apply (getDestinationFee_calls Sample.world Sample.wallet
           Sample.routeExtrinsic).
  intros builder. discriminate.
Defined.

(** ** Source fee: the other branches *)

(** X8: when the built transfer call is not tagged [Evm], [getSourceFee]
    reports the chain's own fee estimate unscaled, labelled with the fee
    asset and its decimals on the source chain; the estimate follows the
    builder call, no contract is asked and no EVM client is needed. *)
Theorem getSourceFee_chain_estimate
    (w : World.t) (this : XcmWallet.t) (amount : Z)
    (srcAddress dstAddress : string) (dstFee : AssetAmount.t)
    (transferConfig : TransferConfig.t) (polkadot : PolkadotService.t)
    (d : nat) (transfer : CallConfig.t) (fee : Z) :
  let chain := sourceChain transferConfig in
  World.create w chain (XcmWallet.configService this) = Ok polkadot ->
  World.getAssetDecimals w polkadot (AssetAmount.asset dstFee) = Ok d ->
  outcome (buildTransfer amount dstAddress dstFee transferConfig)
  = Ok transfer ->
  CallConfig.type transfer <> Evm ->
  World.getFee w polkadot srcAddress transfer = Ok fee ->
  exists build,
    isBuilderCall build = true /\
    getSourceFee w this amount srcAddress dstAddress dstFee transferConfig
    = ([EvPolkadotServiceCreate (AnyChain.key chain);
        EvGetAssetDecimals (AnyChain.key (PolkadotService.chain polkadot))
                           (AssetAmount.asset dstFee);
        build;
        EvPolkadotGetFee srcAddress transfer],
       Ok (AssetAmount.mk (AssetAmount.asset dstFee) fee d)).
Proof.
  intros chain Hcreate Hdec Hbuild Htype Hfee. subst chain.
  destruct (buildTransfer_trace _ _ _ _ _ Hbuild) as (build & Htrace & Hb).
  exists build. split; [exact Hb|].
  unfold getSourceFee, PolkadotService_create, getAssetDecimals, call.
  fold (sourceChain transferConfig).
  destruct (buildTransfer amount dstAddress dstFee transferConfig)
    as [t r] eqn:Hrun.
  simpl in Htrace, Hbuild. subst t r.
  unfold mbind, M_bind, mret, M_ret, sourceChain in *.
  rewrite Hcreate. simpl. rewrite Hdec. simpl.
  rewrite decide_False by exact Htype.
  rewrite Hfee. reflexivity.
Qed.

Lemma getSourceFee_chain_estimate_witness :
  exists build,
    isBuilderCall build = true /\
    getSourceFee Sample.world Sample.walletNoEvm 1000 "5Grw" "0xdest"
      (AssetAmount.mk Sample.assetX 20 12) Sample.routeExtrinsic
    = ([EvPolkadotServiceCreate "chain-a";
        EvGetAssetDecimals "chain-a" Sample.assetX;
        build;
        EvPolkadotGetFee "5Grw"
          (Sample.xTokensTransfer
             (extrinsicParams 1000 "0xdest"
                (AssetAmount.mk Sample.assetX 20 12) Sample.routeExtrinsic))],
       Ok (AssetAmount.mk Sample.assetX 7 12)).
Proof.
  apply (getSourceFee_chain_estimate Sample.world Sample.walletNoEvm 1000
           "5Grw" "0xdest" (AssetAmount.mk Sample.assetX 20 12)
           Sample.routeExtrinsic
           (PolkadotService.mk (ApiAt "wss://chain-a") Sample.chainA)
           12%nat
           (Sample.xTokensTransfer
              (extrinsicParams 1000 "0xdest"
                 (AssetAmount.mk Sample.assetX 20 12) Sample.routeExtrinsic))
           7);
    solve [reflexivity | discriminate].
Defined.

(** X9: [getSourceFee] estimates a fee only for a transfer call it has just
    built: whatever the collaborators answer, a fee-estimator call in its
    trace is the last call, it comes right after the builder call and it is
    made for the call that [buildTransfer] returned.  On a route with no
    builder no estimator is ever called and the method fails. *)
Theorem getSourceFee_estimates_built_transfer_only
    (w : World.t) (this : XcmWallet.t) (amount : Z)
    (srcAddress dstAddress : string) (dstFee : AssetAmount.t)
    (transferConfig : TransferConfig.t) :
  let run := getSourceFee w this amount srcAddress dstAddress dstFee
                          transferConfig in
  (forall est, est ∈ trace run -> isFeeEstimate est = true ->
     exists transfer t build,
       outcome (buildTransfer amount dstAddress dstFee transferConfig)
       = Ok transfer /\
       isBuilderCall build = true /\
       trace run = (t ++ [build; est])%list /\
       (est = EvXTokensGetFee transfer amount \/
        est = EvPolkadotGetFee srcAddress transfer)) /\
  (AssetConfig.extrinsic (sourceConfig transferConfig) = None ->
   AssetConfig.contract (sourceConfig transferConfig) = None ->
   Forall (fun ev => isFeeEstimate ev = false) (trace run) /\
   exists e, outcome run = Err e).
Proof.
  intros run. subst run. unfold_wallet. unfold buildTransfer, call, throw.
  split.
  - destruct (World.create w _ _) as [polkadot|]; simpl.
    2:{ intros est Hin Hest.
        repeat (apply elem_of_cons in Hin as [-> | Hin]);
          try discriminate Hest. apply elem_of_nil in Hin. contradiction. }
    destruct (World.getAssetDecimals w _ _) as [d|]; simpl.
    2:{ intros est Hin Hest.
        repeat (apply elem_of_cons in Hin as [-> | Hin]);
          try discriminate Hest. apply elem_of_nil in Hin. contradiction. }
    destruct (AssetConfig.extrinsic _) as [extrinsic|];
      [|destruct (AssetConfig.contract _) as [contract|]]; simpl.
    3:{ intros est Hin Hest.
        repeat (apply elem_of_cons in Hin as [-> | Hin]);
          try discriminate Hest. apply elem_of_nil in Hin. contradiction. }
    all: destruct (decide _); simpl;
      [destruct (XcmWallet.evmCliets this !! _); simpl;
         [destruct (World.xTokensGetFee w _ _ _); simpl;
            [destruct (convertDecimals _ _ _); simpl|]|]
      |destruct (World.getFee w _ _ _); simpl];
      intros est Hin Hest;
      repeat (apply elem_of_cons in Hin as [-> | Hin]);
      try discriminate Hest;
      try (apply elem_of_nil in Hin; contradiction);
      eexists _, [_; _], _;
      (split; [reflexivity|]);
      (split; [|split; [reflexivity | auto]]); reflexivity.
  - intros -> ->.
    destruct (World.create w _ _) as [polkadot|]; simpl;
      [|split; [repeat constructor | eauto]].
    destruct (World.getAssetDecimals w _ _) as [d|]; simpl;
      split; try (repeat constructor); eauto.
Qed.

Lemma getSourceFee_estimates_built_transfer_only_witness :
  (exists transfer t build,
     outcome (buildTransfer 1000 "0xdest"
                (AssetAmount.mk Sample.assetX 20 12) Sample.routeContract)
     = Ok transfer /\
     isBuilderCall build = true /\
     trace (getSourceFee Sample.world Sample.wallet 1000 "5Grw" "0xdest"
              (AssetAmount.mk Sample.assetX 20 12) Sample.routeContract)
     = (t ++ [build; EvXTokensGetFee
                       (Sample.xTokensContract
                          (contractParams 1000 "0xdest"
                             (AssetAmount.mk Sample.assetX 20 12)
                             Sample.routeContract)) 1000])%list /\
     (EvXTokensGetFee
        (Sample.xTokensContract
           (contractParams 1000 "0xdest"
              (AssetAmount.mk Sample.assetX 20 12) Sample.routeContract))
        1000 = EvXTokensGetFee transfer 1000 \/
      EvXTokensGetFee
        (Sample.xTokensContract
           (contractParams 1000 "0xdest"
              (AssetAmount.mk Sample.assetX 20 12) Sample.routeContract))
        1000 = EvPolkadotGetFee "5Grw" transfer)) /\
  (Forall (fun ev => isFeeEstimate ev = false)
          (trace (getSourceFee Sample.world Sample.wallet 1000 "5Grw"
                    "0xdest" (AssetAmount.mk Sample.assetX 20 12)
                    Sample.routeNoBuilder)) /\
   exists e,
     outcome (getSourceFee Sample.world Sample.wallet 1000 "5Grw" "0xdest"
                (AssetAmount.mk Sample.assetX 20 12) Sample.routeNoBuilder)
     = Err e).
Proof.
  split.
  - apply (proj1 (getSourceFee_estimates_built_transfer_only Sample.world
                    Sample.wallet 1000 "5Grw" "0xdest"
                    (AssetAmount.mk Sample.assetX 20 12)
                    Sample.routeContract)).
    + vm_compute. do 3 right. left.
    + reflexivity.
  - apply (proj2 (getSourceFee_estimates_built_transfer_only Sample.world
                    Sample.wallet 1000 "5Grw" "0xdest"
                    (AssetAmount.mk Sample.assetX 20 12)
                    Sample.routeNoBuilder)); reflexivity.
Defined.



Lemma bind_outcome_inv {A B} (m : M A) (f : A -> M B) (b : B) :
  outcome (m ≫= f) = Ok b ->
  exists a, outcome m = Ok a /\ outcome (f a) = Ok b.
Proof.
  destruct m as [t [a|e]]; unfold mbind, M_bind; simpl.
  - destruct (f a) as [t' r] eqn:E. simpl. intros ->.
    exists a. rewrite E. auto.
  - discriminate.
Qed.

(** X11: every result of [getSourceFee] is labelled with the asset of the
    destination fee it was given and with the decimals the directory gives
    for that asset on the source chain; its amount is the chain's estimate
    for the built call, or, for a call tagged [Evm], the contract's estimate
    converted from eighteen decimals. *)
Theorem getSourceFee_ok_inv
    (w : World.t) (this : XcmWallet.t) (amount : Z)
    (srcAddress dstAddress : string) (dstFee : AssetAmount.t)
    (transferConfig : TransferConfig.t) (result : AssetAmount.t) :
  outcome (getSourceFee w this amount srcAddress dstAddress dstFee
                        transferConfig) = Ok result ->
  exists polkadot transfer,
    World.create w (sourceChain transferConfig)
                 (XcmWallet.configService this) = Ok polkadot /\
    World.getAssetDecimals w polkadot (AssetAmount.asset dstFee)
    = Ok (AssetAmount.decimals result) /\
    outcome (buildTransfer amount dstAddress dstFee transferConfig)
    = Ok transfer /\
    AssetAmount.asset result = AssetAmount.asset dstFee /\
    (CallConfig.type transfer <> Evm ->
     World.getFee w polkadot srcAddress transfer
     = Ok (AssetAmount.amount result)) /\
    (CallConfig.type transfer = Evm ->
     exists evmClient raw,
       XcmWallet.evmCliets this !! AnyChain.key (sourceChain transferConfig)
       = Some evmClient /\
       World.xTokensGetFee w transfer (getProvider evmClient) amount
       = Ok raw /\
       convertDecimals raw 18 (AssetAmount.decimals result)
       = Ok (AssetAmount.amount result)).
Proof.
  unfold getSourceFee, PolkadotService_create, getAssetDecimals, call, throw.
  fold (sourceChain transferConfig).
  destruct (buildTransfer amount dstAddress dstFee transferConfig)
    as [t [transfer|e]] eqn:Hrun;
    unfold mbind, M_bind, mret, M_ret;
    destruct (World.create w _ _) as [polkadot|] eqn:Hcreate; simpl;
    try discriminate;
    destruct (World.getAssetDecimals w _ _) as [d|] eqn:Hdec; simpl;
    try discriminate.
  destruct (decide (CallConfig.type transfer = Evm)) as [Htype|Htype]; simpl.
  - destruct (XcmWallet.evmCliets this !! _) as [evmClient|] eqn:Hclient;
      simpl; [|discriminate].
    destruct (World.xTokensGetFee w _ _ _) as [raw|] eqn:Hfee; simpl;
      [|discriminate].
    destruct (convertDecimals raw 18 d) as [scaled|] eqn:Hconv; simpl;
      [|discriminate].
    intros [= <-]. exists polkadot, transfer. simpl.
    repeat split; auto; [contradiction|].
    intros _. exists evmClient, raw. auto.
  - destruct (World.getFee w _ _ _) as [fee|] eqn:Hfee; simpl;
      [|discriminate].
    intros [= <-]. exists polkadot, transfer. simpl.
    repeat split; auto. contradiction.
Qed.

Lemma getSourceFee_ok_inv_witness :
  exists polkadot transfer,
    World.create Sample.world Sample.chainA Sample.configService
    = Ok polkadot /\
    World.getAssetDecimals Sample.world polkadot Sample.assetX = Ok 12%nat /\
    outcome (buildTransfer 1000 "0xdest" (AssetAmount.mk Sample.assetX 20 12)
               Sample.routeExtrinsic) = Ok transfer /\
    Sample.assetX = Sample.assetX /\
    (CallConfig.type transfer <> Evm ->
     World.getFee Sample.world polkadot "5Grw" transfer = Ok 7) /\
    (CallConfig.type transfer = Evm ->
     exists evmClient raw,
       XcmWallet.evmCliets Sample.wallet !! "chain-a" = Some evmClient /\
       World.xTokensGetFee Sample.world transfer (getProvider evmClient) 1000
       = Ok raw /\
       convertDecimals raw 18 12 = Ok 7).
Proof.
  apply (getSourceFee_ok_inv Sample.world Sample.wallet 1000 "5Grw" "0xdest"
           (AssetAmount.mk Sample.assetX 20 12) Sample.routeExtrinsic
           (AssetAmount.mk Sample.assetX 7 12)).
  reflexivity.
Defined.

(** ** Source data: what a run leaves behind *)

Lemma getSourceFee_result_asset w this amount srcAddress dstAddress dstFee
    transferConfig result :
  outcome (getSourceFee w this amount srcAddress dstAddress dstFee
                        transferConfig) = Ok result ->
  AssetAmount.asset result = AssetAmount.asset dstFee.
Proof.
  unfold_wallet. unfold buildTransfer, call, throw.
  case_answers; try discriminate;
    try (destruct (convertDecimals _ _ _); simpl);
    intros H; try discriminate H; injection H as <-; reflexivity.
Qed.

Lemma getDestinationFee_result_asset w this transferConfig result :
  outcome (getDestinationFee w this transferConfig) = Ok result ->
  AssetAmount.asset result
  = DestinationFeeConfig.asset
      (AssetConfig.destinationFee (sourceConfig transferConfig)).
Proof.
  unfold_wallet. case_answers; try discriminate.
  destruct (DestinationFeeConfig.amount _); simpl; case_answers;
    intros H; try discriminate H; injection H as <-; reflexivity.
Qed.

(** The console after a run in which the four computations succeed. *)
Lemma getSourceData_logged
    (w : World.t) (this : XcmWallet.t) (srcAddr : string)
    (srcChain : AnyChain.t) (dstAddr : string) (dstChain : AnyChain.t)
    (asset : Asset.t) (transferConfig : TransferConfig.t)
    (balance feeBalance destinationFee sourceFee : AssetAmount.t) :
  outcome (getTransferConfig this srcChain dstChain asset)
  = Ok transferConfig ->
  outcome (getBalance w this srcAddr transferConfig) = Ok balance ->
  outcome (getFeeBalance w this srcAddr transferConfig) = Ok feeBalance ->
  outcome (getDestinationFee w this transferConfig) = Ok destinationFee ->
  outcome (getSourceFee w this (AssetAmount.amount balance) srcAddr dstAddr
                        destinationFee transferConfig) = Ok sourceFee ->
  logged (trace (getSourceData w this srcAddr srcChain dstAddr dstChain asset))
  = [balance; feeBalance; destinationFee; sourceFee].
Proof.
  intros Htc Hb Hfb Hdf Hsf. unfold getSourceData.
  rewrite (bind_ok _ _ _ Htc), (bind_ok _ _ _ Hb), (bind_ok _ _ _ Hfb),
    (bind_ok _ _ _ Hdf).
  unfold console_log. rewrite !bind_call_ok.
  cbn [trace outcome fst snd].
  rewrite (bind_ok _ _ _ Hsf), bind_call_ok.
  unfold trace at 1. cbn [fst snd trace outcome].
  rewrite !logged_app.
  rewrite getBalance_logs_nothing, getFeeBalance_logs_nothing,
    getDestinationFee_logs_nothing.
  cbn [logged]. rewrite logged_app, getSourceFee_logs_nothing.
  reflexivity.
Qed.

(** X12: a run of [getSourceData] that completes went through a configured
    route and four successful computations, each value was written to the
    console once and in order, and the source fee it computed is labelled
    with the asset of the destination fee, not with the transfer asset. *)
Theorem getSourceData_ok_inv
    (w : World.t) (this : XcmWallet.t) (srcAddr : string)
    (srcChain : AnyChain.t) (dstAddr : string) (dstChain : AnyChain.t)
    (asset : Asset.t) (u : unit) :
  let run := getSourceData w this srcAddr srcChain dstAddr dstChain asset in
  outcome run = Ok u ->
  exists transferConfig balance feeBalance destinationFee sourceFee,
    IConfigService.build (XcmWallet.configService this) asset srcChain
                         dstChain = Ok transferConfig /\
    outcome (getBalance w this srcAddr transferConfig) = Ok balance /\
    outcome (getFeeBalance w this srcAddr transferConfig) = Ok feeBalance /\
    outcome (getDestinationFee w this transferConfig) = Ok destinationFee /\
    outcome (getSourceFee w this (AssetAmount.amount balance) srcAddr dstAddr
                          destinationFee transferConfig) = Ok sourceFee /\
    logged (trace run) = [balance; feeBalance; destinationFee; sourceFee] /\
    AssetAmount.asset sourceFee
    = DestinationFeeConfig.asset
        (AssetConfig.destinationFee (sourceConfig transferConfig)).
Proof.
  intros run Hrun. subst run.
  pose proof Hrun as Hsteps. unfold getSourceData in Hsteps.
  apply bind_outcome_inv in Hsteps as (transferConfig & Htc & Hsteps).
  apply bind_outcome_inv in Hsteps as (balance & Hb & Hsteps).
  apply bind_outcome_inv in Hsteps as (feeBalance & Hfb & Hsteps).
  apply bind_outcome_inv in Hsteps as (destinationFee & Hdf & Hsteps).
  apply bind_outcome_inv in Hsteps as (? & _ & Hsteps).
  apply bind_outcome_inv in Hsteps as (? & _ & Hsteps).
  apply bind_outcome_inv in Hsteps as (? & _ & Hsteps).
  apply bind_outcome_inv in Hsteps as (sourceFee & Hsf & _).
  exists transferConfig, balance, feeBalance, destinationFee, sourceFee.
  repeat (split; [assumption|]).
  split.
  - apply (getSourceData_logged w this srcAddr srcChain dstAddr dstChain
             asset transferConfig); assumption.
  - rewrite (getSourceFee_result_asset _ _ _ _ _ _ _ _ Hsf).
    apply (getDestinationFee_result_asset _ _ _ _ Hdf).
Qed.

Lemma getSourceData_ok_inv_witness :
  exists transferConfig balance feeBalance destinationFee sourceFee,
    IConfigService.build Sample.configService Sample.assetX Sample.chainA
                         Sample.chainB = Ok transferConfig /\
    outcome (getBalance Sample.world Sample.wallet "5Grw" transferConfig)
    = Ok balance /\
    outcome (getFeeBalance Sample.world Sample.wallet "5Grw" transferConfig)
    = Ok feeBalance /\
    outcome (getDestinationFee Sample.world Sample.wallet transferConfig)
    = Ok destinationFee /\
    outcome (getSourceFee Sample.world Sample.wallet
               (AssetAmount.amount balance) "5Grw" "0xdest" destinationFee
               transferConfig) = Ok sourceFee /\
    logged (trace (getSourceData Sample.world Sample.wallet "5Grw"
                     Sample.chainA "0xdest" Sample.chainB Sample.assetX))
    = [balance; feeBalance; destinationFee; sourceFee] /\
    AssetAmount.asset sourceFee
    = DestinationFeeConfig.asset
        (AssetConfig.destinationFee (sourceConfig transferConfig)).
Proof.
  apply (getSourceData_ok_inv Sample.world Sample.wallet "5Grw" Sample.chainA
           "0xdest" Sample.chainB Sample.assetX tt).
  reflexivity.
Defined.

(** X13: a run of [getSourceData] that fails fails with the error of the
    step that failed and has written to the console either nothing, when
    the route lookup, the balance, the fee balance or the destination fee
    failed, or exactly the first three values, when the source fee
    failed. *)
Theorem getSourceData_failure_logs
    (w : World.t) (this : XcmWallet.t) (srcAddr : string)
    (srcChain : AnyChain.t) (dstAddr : string) (dstChain : AnyChain.t)
    (asset : Asset.t) (e : error) :
  let run := getSourceData w this srcAddr srcChain dstAddr dstChain asset in
  let route := IConfigService.build (XcmWallet.configService this) asset
                                    srcChain dstChain in
  outcome run = Err e ->
  (logged (trace run) = [] /\
   (route = Err e \/
    exists transferConfig,
      route = Ok transferConfig /\
      (outcome (getBalance w this srcAddr transferConfig) = Err e \/
       outcome (getFeeBalance w this srcAddr transferConfig) = Err e \/
       outcome (getDestinationFee w this transferConfig) = Err e)))
  \/
  (exists transferConfig balance feeBalance destinationFee,
     route = Ok transferConfig /\
     outcome (getBalance w this srcAddr transferConfig) = Ok balance /\
     outcome (getFeeBalance w this srcAddr transferConfig) = Ok feeBalance /\
     outcome (getDestinationFee w this transferConfig) = Ok destinationFee /\
     outcome (getSourceFee w this (AssetAmount.amount balance) srcAddr
                           dstAddr destinationFee transferConfig) = Err e /\
     logged (trace run) = [balance; feeBalance; destinationFee]).
Proof.
  intros run route. subst run route. unfold getSourceData.
  destruct (IConfigService.build _ asset srcChain dstChain)
    as [transferConfig|e0] eqn:Hroute.
  2:{ assert (outcome (getTransferConfig this srcChain dstChain asset)
              = Err e0) as Htc by exact Hroute.
      rewrite (bind_err _ _ _ Htc). simpl. intros [= <-].
      left. split; [|left; reflexivity].
      unfold getTransferConfig. reflexivity. }
  assert (outcome (getTransferConfig this srcChain dstChain asset)
          = Ok transferConfig) as Htc by exact Hroute.
  assert (trace (getTransferConfig this srcChain dstChain asset) = [])
    as Htrace by reflexivity.
  rewrite (bind_ok _ _ _ Htc), Htrace.
  destruct (outcome (getBalance w this srcAddr transferConfig))
    as [balance|e0] eqn:Hb.
  2:{ rewrite (bind_err _ _ _ Hb). simpl. intros [= <-].
      left. split; [apply getBalance_logs_nothing|].
      right. exists transferConfig. auto. }
  rewrite (bind_ok _ _ _ Hb).
  destruct (outcome (getFeeBalance w this srcAddr transferConfig))
    as [feeBalance|e0] eqn:Hfb.
  2:{ rewrite (bind_err _ _ _ Hfb). simpl. intros [= <-].
      left. split.
      - rewrite logged_app, getBalance_logs_nothing,
          getFeeBalance_logs_nothing. reflexivity.
      - right. exists transferConfig. auto. }
  rewrite (bind_ok _ _ _ Hfb).
  destruct (outcome (getDestinationFee w this transferConfig))
    as [destinationFee|e0] eqn:Hdf.
  2:{ rewrite (bind_err _ _ _ Hdf). simpl. intros [= <-].
      left. split.
      - rewrite !logged_app, getBalance_logs_nothing,
          getFeeBalance_logs_nothing, getDestinationFee_logs_nothing.
        reflexivity.
      - right. exists transferConfig. auto. }
  rewrite (bind_ok _ _ _ Hdf).
  unfold console_log. rewrite !bind_call_ok. cbn [trace outcome fst snd].
  destruct (outcome (getSourceFee w this (AssetAmount.amount balance) srcAddr
                       dstAddr destinationFee transferConfig))
    as [sourceFee|e0] eqn:Hsf.
  { rewrite (bind_ok _ _ _ Hsf), bind_call_ok. simpl. discriminate. }
  rewrite (bind_err _ _ _ Hsf). simpl. intros [= <-].
  right. exists transferConfig, balance, feeBalance, destinationFee.
  repeat (split; [reflexivity || assumption|]).
  rewrite !logged_app, getBalance_logs_nothing, getFeeBalance_logs_nothing,
    getDestinationFee_logs_nothing.
  cbn [logged]. rewrite getSourceFee_logs_nothing. reflexivity.
Qed.

Lemma getSourceData_failure_logs_witness :
  (logged (trace (getSourceData Sample.world Sample.wallet "5Grw"
                    Sample.chainA "0xdest" Sample.chainB Sample.assetY)) = []
   /\
   (IConfigService.build Sample.configService Sample.assetY Sample.chainA
                         Sample.chainB = Err (Error "No config found") \/
    exists transferConfig,
      IConfigService.build Sample.configService Sample.assetY Sample.chainA
                           Sample.chainB = Ok transferConfig /\
      (outcome (getBalance Sample.world Sample.wallet "5Grw" transferConfig)
       = Err (Error "No config found") \/
       outcome (getFeeBalance Sample.world Sample.wallet "5Grw"
                  transferConfig) = Err (Error "No config found") \/
       outcome (getDestinationFee Sample.world Sample.wallet transferConfig)
       = Err (Error "No config found"))))
  \/
  (exists transferConfig balance feeBalance destinationFee,
     IConfigService.build Sample.configService Sample.assetY Sample.chainA
                          Sample.chainB = Ok transferConfig /\
     outcome (getBalance Sample.world Sample.wallet "5Grw" transferConfig)
     = Ok balance /\
     outcome (getFeeBalance Sample.world Sample.wallet "5Grw" transferConfig)
     = Ok feeBalance /\
     outcome (getDestinationFee Sample.world Sample.wallet transferConfig)
     = Ok destinationFee /\
     outcome (getSourceFee Sample.world Sample.wallet
                (AssetAmount.amount balance) "5Grw" "0xdest" destinationFee
                transferConfig) = Err (Error "No config found") /\
     logged (trace (getSourceData Sample.world Sample.wallet "5Grw"
                      Sample.chainA "0xdest" Sample.chainB Sample.assetY))
     = [balance; feeBalance; destinationFee]).
Proof.
  apply (getSourceData_failure_logs Sample.world Sample.wallet "5Grw"
           Sample.chainA "0xdest" Sample.chainB Sample.assetY
           (Error "No config found")).
  reflexivity.
Defined.

(** ** Subscriptions: calls and failures *)

Lemma subscribeBalance_run (w : World.t) (this : XcmWallet.t)
    (address : string) (chain : AnyChain.t) (chainConfig : ChainConfig.t)
    (client : EvmClient) (api : ApiPromise) :
  let configs := getBalanceConfigs address chain chainConfig in
  (Exists isEvmEntry configs ->
   outcome (getEvmClient this chain) = Ok client) ->
  (Exists isSubstrateEntry configs ->
   World.getPolkadotApi w (AnyChain.ws chain) = Ok api) ->
  subscribeBalance w this address chain chainConfig
  = ((fun _ => EvGetPolkadotApi (AnyChain.ws chain))
     <$> filter isSubstrateEntry configs,
     Ok (merge ((subscriptionOf client api <$> filter isEvmEntry configs)
                ++ (subscriptionOf client api
                    <$> filter isSubstrateEntry configs)))).
Proof.
  intros configs Hevm Hsub.
  unfold subscribeBalance. fold configs.
  change (fun e => CallConfig.type (BalanceConfigEntry.config e) = Evm)
    with isEvmEntry.
  change (fun e => CallConfig.type (BalanceConfigEntry.config e) = Substrate)
    with isSubstrateEntry.
  rewrite (mapM_subscribeErc20Balance this chain client)
    by (intros Hne; apply Hevm; eapply filter_nonempty_Exists; exact Hne).
  rewrite (Promise_all_subscribeSubstrateBalance w chain api)
    by (intros Hne; apply Hsub; eapply filter_nonempty_Exists; exact Hne).
  rewrite subscriptionOf_evm, subscriptionOf_substrate.
  unfold mbind, M_bind, mret, M_ret. simpl. rewrite app_nil_r. reflexivity.
Qed.

Lemma Exists_entryOf_2 (P : BalanceConfigEntry.t -> Prop)
    (Q : AssetConfig.t -> Prop) address chain (l : list AssetConfig.t) :
  (forall a, P (entryOf address chain a) <-> Q a) ->
  Exists Q l -> Exists P (entryOf address chain <$> l).
Proof.
  intros HPQ Hex. apply Exists_exists in Hex as (a & Ha & Hq).
  apply Exists_exists. exists (entryOf address chain a).
  split; [apply list_elem_of_fmap_2, Ha | apply HPQ, Hq].
Qed.

(** X14: when the clients it needs are there, the calls that
    [subscribeBalance] makes to its collaborators are calls of
    [getPolkadotApi] for the endpoint of the chain, one for each asset of
    the chain's configuration whose built configuration is tagged
    [Substrate]; the merged stream never has more constituents than the
    chain has configured assets. *)
Theorem subscribeBalance_connections
    (w : World.t) (this : XcmWallet.t) (address : string)
    (chain : AnyChain.t) (chainConfig : ChainConfig.t)
    (client : EvmClient) (api : ApiPromise) :
  let assets := ChainConfig.getAssetsConfigs chainConfig in
  (Exists (isEvmAsset address chain) assets ->
   outcome (getEvmClient this chain) = Ok client) ->
  (Exists (isSubstrateAsset address chain) assets ->
   World.getPolkadotApi w (AnyChain.ws chain) = Ok api) ->
  trace (subscribeBalance w this address chain chainConfig)
  = replicate (length (filter (isSubstrateAsset address chain) assets))
              (EvGetPolkadotApi (AnyChain.ws chain)) /\
  exists subscriptions,
    outcome (subscribeBalance w this address chain chainConfig)
    = Ok (merge subscriptions) /\
    (length subscriptions <= length assets)%nat.
Proof.
  intros assets Hevm Hsub.
  rewrite (subscribeBalance_run w this address chain chainConfig client api).
  2:{ intros Hex. apply Hevm. rewrite getBalanceConfigs_entries in Hex.
      apply (Exists_entryOf isEvmEntry (isEvmAsset address chain)) in Hex;
        [exact Hex | reflexivity]. }
  2:{ intros Hex. apply Hsub. rewrite getBalanceConfigs_entries in Hex.
      apply (Exists_entryOf isSubstrateEntry (isSubstrateAsset address chain))
        in Hex; [exact Hex | reflexivity]. }
  rewrite getBalanceConfigs_entries. fold assets.
  rewrite (filter_entryOf isSubstrateEntry (isSubstrateAsset address chain))
    by reflexivity.
  rewrite (filter_entryOf isEvmEntry (isEvmAsset address chain))
    by reflexivity.
  split.
  - simpl. rewrite <- list_fmap_compose.
    induction (filter (isSubstrateAsset address chain) assets) as [|a l IH];
      [reflexivity|]. simpl. rewrite <- IH. reflexivity.
  - eexists. split; [reflexivity|].
    rewrite length_app, !length_fmap.
    clear. induction assets as [|a l IH]; [reflexivity|].
    rewrite !filter_cons.
    destruct (decide (isEvmAsset address chain a)) as [He|He];
      destruct (decide (isSubstrateAsset address chain a)) as [Hs|Hs];
      simpl in *; try lia.
    unfold isEvmAsset, isSubstrateAsset in *. congruence.
Qed.

Lemma no_evm_asset_on_chain_a :
  ~ Exists (isEvmAsset "5Grw" Sample.chainA)
      (ChainConfig.getAssetsConfigs SampleSubstrateOnly.chainConfig).
Proof.
  intros Hex. apply Exists_exists in Hex as (a & Hin & Ha).
  repeat (apply elem_of_cons in Hin as [-> | Hin]); try discriminate Ha.
  apply elem_of_nil in Hin. exact Hin.
Qed.

Lemma subscribeBalance_connections_witness :
  trace (subscribeBalance Sample.world Sample.walletNoEvm "5Grw"
           Sample.chainA SampleSubstrateOnly.chainConfig)
  = [EvGetPolkadotApi "wss://chain-a"; EvGetPolkadotApi "wss://chain-a"] /\
  exists subscriptions,
    outcome (subscribeBalance Sample.world Sample.walletNoEvm "5Grw"
               Sample.chainA SampleSubstrateOnly.chainConfig)
    = Ok (merge subscriptions) /\
    (length subscriptions <= 2)%nat.
Proof.
  apply (subscribeBalance_connections Sample.world Sample.walletNoEvm "5Grw"
           Sample.chainA SampleSubstrateOnly.chainConfig
           (NewEvmClient Sample.moonbeam) (ApiAt "wss://chain-a")).
  - intros Hex. exfalso. exact (no_evm_asset_on_chain_a Hex).
  - reflexivity.
Defined.

(** X15: if some asset of the chain's configuration is tagged [Evm], the
    wallet has no EVM client for the chain and the key of the chain is not a
    property name that every object inherits, [subscribeBalance] fails with
    the "No evm configuration found" error and [getPolkadotApi] is not
    called, not even for the assets tagged [Substrate]. *)
Theorem subscribeBalance_evm_without_client
    (w : World.t) (this : XcmWallet.t) (address : string)
    (chain : AnyChain.t) (chainConfig : ChainConfig.t) :
  Exists (isEvmAsset address chain)
         (ChainConfig.getAssetsConfigs chainConfig) ->
  XcmWallet.evmCliets this !! AnyChain.key chain = None ->
  AnyChain.key chain ∉ inheritedKeys ->
  subscribeBalance w this address chain chainConfig
  = ([], Err (Error ("No evm configuration found for "
                     +:+ dquote +:+ "[object Object]" +:+ dquote))).
Proof.
  intros Hex Hnone Hkey.
  apply (Exists_entryOf_2 isEvmEntry (isEvmAsset address chain) address chain)
    in Hex; [|reflexivity].
  rewrite <- getBalanceConfigs_entries in Hex.
  apply (Exists_filter_nonempty isEvmEntry) in Hex.
  assert (outcome (getEvmClient this chain)
          = Err (Error ("No evm configuration found for "
                        +:+ dquote +:+ "[object Object]" +:+ dquote)))
    as Hclient.
  { unfold getEvmClient. rewrite Hnone, decide_False by exact Hkey.
    reflexivity. }
  unfold subscribeBalance.
  match goal with
  | |- context [mapM _ ?l] =>
      rewrite (mapM_subscribeErc20Balance_fails this chain _ l Hclient Hex)
  end.
  reflexivity.
Qed.

Lemma subscribeBalance_evm_without_client_witness :
  subscribeBalance Sample.world Sample.walletNoEvm "0xabc" Sample.chainB
                   SampleChain.chainConfig
  = ([], Err (Error ("No evm configuration found for "
                     +:+ dquote +:+ "[object Object]" +:+ dquote))).
Proof.
  apply (subscribeBalance_evm_without_client Sample.world Sample.walletNoEvm
           "0xabc" Sample.chainB SampleChain.chainConfig).
  - right. left. reflexivity.
  - reflexivity.
  - exact chain_b_not_inherited.
Defined.

Lemma Promise_all_subscribeSubstrateBalance_trace (w : World.t)
    (chain : AnyChain.t) (l : list BalanceConfigEntry.t) :
  trace (Promise_all
           ((fun e => subscribeSubstrateBalance w (BalanceConfigEntry.key e)
                        (BalanceConfigEntry.config e) chain) <$> l))
  = replicate (length l) (EvGetPolkadotApi (AnyChain.ws chain)).
Proof.
  induction l as [|e l IH]; [reflexivity|].
  rewrite fmap_cons. cbn [Promise_all].
  unfold subscribeSubstrateBalance at 1, getPolkadotApi, call.
  unfold mbind, M_bind, mret, M_ret.
  destruct (Promise_all _) as [t' rs]. simpl in IH. subst t'.
  destruct (World.getPolkadotApi w (AnyChain.ws chain)); reflexivity.
Qed.

(** X16: if some configured asset is tagged [Substrate] and the chain
    connection is rejected, [subscribeBalance] fails with the rejection,
    although the contract subscriptions had been made; one connection was
    attempted for every asset tagged [Substrate]. *)
Theorem subscribeBalance_connection_rejected
    (w : World.t) (this : XcmWallet.t) (address : string)
    (chain : AnyChain.t) (chainConfig : ChainConfig.t)
    (client : EvmClient) (e : error) :
  let configs := getBalanceConfigs address chain chainConfig in
  (Exists isEvmEntry configs ->
   XcmWallet.evmCliets this !! AnyChain.key chain = Some client) ->
  Exists isSubstrateEntry configs ->
  World.getPolkadotApi w (AnyChain.ws chain) = Err e ->
  subscribeBalance w this address chain chainConfig
  = (replicate (length (filter isSubstrateEntry configs))
               (EvGetPolkadotApi (AnyChain.ws chain)),
     Err e).
Proof.
  intros configs Hevm Hex Hrej.
  apply (Exists_filter_nonempty isSubstrateEntry) in Hex.
  unfold subscribeBalance. fold configs.
  change (fun e => CallConfig.type (BalanceConfigEntry.config e) = Evm)
    with isEvmEntry.
  change (fun e => CallConfig.type (BalanceConfigEntry.config e) = Substrate)
    with isSubstrateEntry.
  rewrite (mapM_subscribeErc20Balance this chain client)
    by (intros Hne; apply getEvmClient_own, Hevm;
        eapply filter_nonempty_Exists; exact Hne).
  rewrite bind_pure.
  match goal with
  | |- context [Promise_all (?f <$> ?l)] =>
      pose proof (Promise_all_subscribeSubstrateBalance_fails w chain e l
                    Hrej Hex) as Hfail;
      pose proof (Promise_all_subscribeSubstrateBalance_trace w chain l)
        as Htrace
  end.
  rewrite (bind_err _ _ _ Hfail), Htrace. reflexivity.
Qed.

Lemma subscribeBalance_connection_rejected_witness :
  subscribeBalance SampleFee.offline Sample.wallet "0xabc" Sample.chainB
                   SampleChain.chainConfig
  = ([EvGetPolkadotApi "wss://chain-b"], Err (Rejected "disconnected")).
Proof.
  apply (subscribeBalance_connection_rejected SampleFee.offline Sample.wallet
           "0xabc" Sample.chainB SampleChain.chainConfig
           (NewEvmClient Sample.moonbeam) (Rejected "disconnected")).
  - reflexivity.
  - left. reflexivity.
  - reflexivity.
Defined.

(** ** One-shot balance against subscription *)

(** X17: the stream from which [getBalance] takes the balance of a route is
    one of the streams that [subscribeBalance] merges for the source chain,
    provided the route's configuration is among the chain's configured
    assets, is configured for the transfer asset and is tagged [Evm] or
    [Substrate]. *)
Theorem getBalance_stream_is_subscribed
    (w : World.t) (this : XcmWallet.t) (address : string)
    (transferConfig : TransferConfig.t) (chainConfig : ChainConfig.t)
    (subscriptions : list Observable) (stream : Observable) :
  sourceConfig transferConfig ∈ ChainConfig.getAssetsConfigs chainConfig ->
  AssetConfig.asset (sourceConfig transferConfig)
  = TransferConfig.asset transferConfig ->
  (CallConfig.type (balanceConfig address transferConfig) = Evm \/
   CallConfig.type (balanceConfig address transferConfig) = Substrate) ->
  outcome (subscribeBalance w this address (sourceChain transferConfig)
                            chainConfig) = Ok (merge subscriptions) ->
  EvFirstValueFrom stream ∈ trace (getBalance w this address transferConfig) ->
  stream ∈ subscriptions.
Proof.
  intros Hin Hasset Htag Hsub Hev.
  set (chain := sourceChain transferConfig) in *.
  set (configs := getBalanceConfigs address chain chainConfig).
  set (entry := BalanceConfigEntry.mk
                  (Asset.key (TransferConfig.asset transferConfig))
                  (balanceConfig address transferConfig)).
  assert (entry ∈ configs) as Hentry.
  { unfold configs, getBalanceConfigs.
    apply list_elem_of_fmap. exists (sourceConfig transferConfig).
    split; [|exact Hin].
    unfold entry, balanceConfig, balanceParams. rewrite Hasset.
    reflexivity. }
  destruct (subscribeBalance_ok_inv w this address chain chainConfig _ Hsub)
    as (client & api & Hevm & Hapi).
  pose proof (subscribeBalance_ok w this address chain chainConfig client api
                Hevm Hapi) as Hok.
  fold configs in Hok, Hevm, Hapi.
  rewrite Hsub in Hok. injection Hok as ->.
  rewrite getBalance_unfold in Hev. unfold balanceResolver in Hev.
  fold chain in Hev.
  destruct Htag as [Htype | Htype].
  - assert (isEvmEntry entry) as He by exact Htype.
    assert (Exists isEvmEntry configs) as Hex
      by (apply Exists_exists; eauto).
    specialize (Hevm Hex).
    apply elem_of_app. left.
    replace stream with (subscriptionOf client api entry).
    { apply list_elem_of_fmap_2, list_elem_of_filter. auto. }
    unfold subscriptionOf. rewrite decide_True by exact He.
    rewrite decide_True in Hev by exact Htype.
    unfold getErc20Balance in Hev.
    rewrite getEvmClient_run, Hevm in Hev.
    unfold PolkadotService_create, getAssetDecimals, call in Hev.
    unfold mbind, M_bind, mret, M_ret in Hev. simpl in Hev.
    revert Hev. case_answers; intros Hev;
      repeat (apply elem_of_cons in Hev as [Hev | Hev]);
      try discriminate Hev;
      try (apply elem_of_nil in Hev; contradiction);
      injection Hev as ->; reflexivity.
  - assert (isSubstrateEntry entry) as He by exact Htype.
    assert (~ isEvmEntry entry) as Hne
      by (unfold isEvmEntry, isSubstrateEntry in *; congruence).
    assert (Exists isSubstrateEntry configs) as Hex
      by (apply Exists_exists; eauto).
    specialize (Hapi Hex).
    apply elem_of_app. right.
    replace stream with (subscriptionOf client api entry).
    { apply list_elem_of_fmap_2, list_elem_of_filter. auto. }
    unfold subscriptionOf. rewrite decide_False by exact Hne.
    rewrite decide_False in Hev by exact Hne.
    unfold_wallet. unfold chain in Hapi, Hev.
    rewrite Hapi in Hev. simpl in Hev.
    revert Hev. case_answers; intros Hev;
      repeat (apply elem_of_cons in Hev as [Hev | Hev]);
      try discriminate Hev;
      try (apply elem_of_nil in Hev; contradiction);
      injection Hev as ->; reflexivity.
Qed.

Lemma getBalance_stream_is_subscribed_witness :
  SubstrateBalanceObservable (ApiAt "wss://chain-a")
    (Sample.tokensAccounts (BalanceParams.mk "5Grw" "x")) "x"
  ∈ [SubstrateBalanceObservable (ApiAt "wss://chain-a")
       (Sample.tokensAccounts (BalanceParams.mk "5Grw" "x")) "x";
     SubstrateBalanceObservable (ApiAt "wss://chain-a")
       (Sample.systemAccount (BalanceParams.mk "5Grw" "y")) "y"].
Proof.
  apply (getBalance_stream_is_subscribed Sample.world Sample.walletNoEvm
           "5Grw" SampleSubstrateOnly.routeX
           SampleSubstrateOnly.chainConfig).
  - left.
  - reflexivity.
  - right. reflexivity.
  - reflexivity.
  - vm_compute. right. left.
Defined.

(** ** Transfer data *)

(** X18: [getTransferData] makes a signer for the source address if the
    source is an EVM parachain and then one for the destination address if
    the destination is, each for what the wallet's [evmChains] holds under
    the key of the chain.  If a creation throws, the call fails with that
    error and the SDK is not reached, even when it is the source's signer
    that fails and the destination's would have replaced it.  Otherwise the
    SDK gets the addresses, chains and asset that were given and its answer
    is returned unchanged; the signer it gets is the destination's whenever
    the destination is an EVM parachain, the source's if the source alone
    is, and none if neither is. *)
Theorem getTransferData_signer
    (this : XcmWallet.t) (TransferData : Type)
    (transfer : SdkTransferParams.t -> result TransferData)
    (isEvmParachain : AnyChain.t -> bool)
    (createWalletClient : string -> ChainProperty -> result WalletClient.t)
    (srcAddr : string) (srcChain : AnyChain.t)
    (dstAddr : string) (dstChain : AnyChain.t) (asset : Asset.t) :
  let srcSigner :=
    createWalletClient srcAddr (evmChainOf this (AnyChain.key srcChain)) in
  let dstSigner :=
    createWalletClient dstAddr (evmChainOf this (AnyChain.key dstChain)) in
  let params evmSigner :=
    SdkTransferParams.mk dstAddr dstChain asset srcAddr srcChain evmSigner in
  let run := getTransferData this transfer isEvmParachain createWalletClient
               srcAddr srcChain dstAddr dstChain asset in
  (isEvmParachain srcChain = false -> isEvmParachain dstChain = false ->
   run = transfer (params None)) /\
  (isEvmParachain srcChain = true ->
   forall e, srcSigner = Err e -> run = Err e) /\
  (isEvmParachain dstChain = true ->
   (isEvmParachain srcChain = true -> exists s, srcSigner = Ok s) ->
   (forall e, dstSigner = Err e -> run = Err e) /\
   (forall s, dstSigner = Ok s -> run = transfer (params (Some s)))) /\
  (isEvmParachain srcChain = true -> isEvmParachain dstChain = false ->
   forall s, srcSigner = Ok s -> run = transfer (params (Some s))).
Proof.
  intros srcSigner dstSigner params run.
  subst srcSigner dstSigner params run. unfold getTransferData.
  split; [|split; [|split]].
  - intros -> ->. reflexivity.
  - intros -> e ->. reflexivity.
  - intros -> Hsrc.
    destruct (isEvmParachain srcChain).
    + destruct (Hsrc eq_refl) as [s0 ->].
      split; [intros e ->; reflexivity | intros s ->; reflexivity].
    + split; [intros e ->; reflexivity | intros s ->; reflexivity].
  - intros -> -> s ->. reflexivity.
Qed.

Lemma getTransferData_signer_witness :
  getTransferData Sample.wallet SampleSdk.transfer SampleSdk.everyChainEvm
                  SampleSdk.createWalletClient
                  "0xsrc" Sample.chainB "0xdest" Sample.chainA Sample.assetX
  = Ok (Some (WalletClient.mk "0xdest" Sample.hydration))
  /\
  getTransferData Sample.walletNoEvm SampleSdk.transfer
                  SampleSdk.isEvmParachain SampleSdk.createWalletClient
                  "0xsrc" Sample.chainB "5Grw" Sample.chainA Sample.assetX
  = Err (Error "No URL was provided to the Transport")
  /\
  getTransferData Sample.wallet SampleSdk.transfer SampleSdk.isEvmParachain
                  SampleSdk.createWalletClient
                  "5Grw" Sample.chainA "5Dest" Sample.chainA Sample.assetX
  = Ok None.
Proof.
  split; [|split].
  - refine (proj2 (proj1 (proj2 (proj2
              (getTransferData_signer Sample.wallet _ SampleSdk.transfer
                 SampleSdk.everyChainEvm SampleSdk.createWalletClient
                 "0xsrc" Sample.chainB "0xdest" Sample.chainA Sample.assetX)))
              _ _) (WalletClient.mk "0xdest" Sample.hydration) _);
      [reflexivity | | reflexivity].
    intros _. eexists. reflexivity.
  - refine (proj1 (proj2
              (getTransferData_signer Sample.walletNoEvm _ SampleSdk.transfer
                 SampleSdk.isEvmParachain SampleSdk.createWalletClient
                 "0xsrc" Sample.chainB "5Grw" Sample.chainA Sample.assetX))
              _ _ _); reflexivity.
  - refine (proj1
              (getTransferData_signer Sample.wallet _ SampleSdk.transfer
                 SampleSdk.isEvmParachain SampleSdk.createWalletClient
                 "5Grw" Sample.chainA "5Dest" Sample.chainA Sample.assetX)
              _ _); reflexivity.
Defined.

(** ** Minimum amounts *)

(** X19: [getFee] computes exactly what [getMin] computes.  With a [min]
    builder configured both return the raw balance of one chain query,
    built for the chain's minimum-asset id and keyed by the asset, and never
    ask a contract; without one they call no collaborator at all and return
    [toBigInt] of the chain's minimum at twelve decimals, or zero when that
    minimum is zero. *)
Theorem getFee_is_getMin
    (w : World.t) (config : MinAssetConfig.t) (chain : MinChain.t) :
  let asset := AssetConfig.asset (MinAssetConfig.config config) in
  getFee w config chain = getMin w config chain /\
  Forall (fun ev => isContractBalanceQuery ev = false)
         (trace (getMin w config chain)) /\
  (forall minBuilder amount,
     MinAssetConfig.min config = Some minBuilder ->
     outcome (getMin w config chain) = Ok amount ->
     exists api balance,
       World.getPolkadotApi w (AnyChain.ws (MinChain.chain chain)) = Ok api /\
       World.firstValueFrom w
         (SubstrateBalanceObservable api
            (minBuilder (MinParams.mk (MinChain.getMinAssetId chain asset)))
            (Asset.key asset)) = Ok balance /\
       amount = Balance.balance balance) /\
  (MinAssetConfig.min config = None ->
   getMin w config chain
   = ([], Ok (if Qeq_bool (MinChain.getAssetMin chain asset) 0 then 0
              else World.toBigInt w (MinChain.getAssetMin chain asset) 12))).
Proof.
  intros asset. subst asset. split; [reflexivity|].
  unfold getMin, truthy. unfold_wallet. split; [|split].
  - destruct (MinAssetConfig.min config); simpl.
    + case_answers; repeat constructor.
    + destruct (Qeq_bool _ _); simpl; constructor.
  - intros minBuilder amount ->.
    destruct (World.getPolkadotApi w _) as [api|] eqn:Hapi; simpl;
      [|discriminate].
    destruct (World.firstValueFrom w _) as [balance|] eqn:Hbal; simpl;
      [|discriminate].
    intros [= <-]. exists api, balance. auto.
  - intros ->. destruct (Qeq_bool _ _); reflexivity.
Qed.

Lemma getFee_is_getMin_witness :
  (exists api balance,
     World.getPolkadotApi Sample.world "wss://chain-a" = Ok api /\
     World.firstValueFrom Sample.world
       (SubstrateBalanceObservable api
          (SampleMin.minimumOf (MinParams.mk "x")) "x") = Ok balance /\
     1000 = Balance.balance balance) /\
  getMin Sample.world (SampleMin.config None) (SampleMin.chainA 0)
  = ([], Ok 0) /\
  getMin Sample.world (SampleMin.config None) (SampleMin.chainA (1 # 100))
  = ([], Ok 10000000000).
Proof.
  split; [|split].
  - apply (proj1 (proj2 (proj2 (getFee_is_getMin Sample.world
                                  (SampleMin.config (Some SampleMin.minimumOf))
                                  (SampleMin.chainA 0))))
             SampleMin.minimumOf 1000); reflexivity.
  - apply (proj2 (proj2 (proj2 (getFee_is_getMin Sample.world
                                  (SampleMin.config None)
                                  (SampleMin.chainA 0))))).
    reflexivity.
  - apply (proj2 (proj2 (proj2 (getFee_is_getMin Sample.world
                                  (SampleMin.config None)
                                  (SampleMin.chainA (1 # 100)))))).
    reflexivity.
Defined.

(** ** Chain services in one run *)

Lemma serviceCreations_app (t1 t2 : list Event) :
  serviceCreations (t1 ++ t2)
  = (serviceCreations t1 ++ serviceCreations t2)%list.
Proof.
  induction t1 as [|ev t1 IH]; [reflexivity|].
  destruct ev; simpl; rewrite IH; reflexivity.
Qed.

Lemma getBalance_serviceCreations w this address transferConfig result :
  outcome (getBalance w this address transferConfig) = Ok result ->
  serviceCreations (trace (getBalance w this address transferConfig))
  = [AnyChain.key (sourceChain transferConfig)].
Proof.
  unfold_wallet. case_answers; intros H; try discriminate H; reflexivity.
Qed.

Lemma getFeeBalance_serviceCreations w this address transferConfig result :
  outcome (getFeeBalance w this address transferConfig) = Ok result ->
  serviceCreations (trace (getFeeBalance w this address transferConfig))
  = [AnyChain.key (sourceChain transferConfig)].
Proof.
  unfold_wallet. case_answers; intros H; try discriminate H; reflexivity.
Qed.

Lemma getDestinationFee_serviceCreations w this transferConfig result :
  outcome (getDestinationFee w this transferConfig) = Ok result ->
  serviceCreations (trace (getDestinationFee w this transferConfig))
  = [AnyChain.key (destinationChain transferConfig)].
Proof.
  unfold_wallet. case_answers; try discriminate.
  destruct (DestinationFeeConfig.amount _); simpl; case_answers;
    intros H; try discriminate H; reflexivity.
Qed.

Lemma getSourceFee_serviceCreations w this amount srcAddress dstAddress
    dstFee transferConfig result :
  outcome (getSourceFee w this amount srcAddress dstAddress dstFee
                        transferConfig) = Ok result ->
  serviceCreations (trace (getSourceFee w this amount srcAddress dstAddress
                                        dstFee transferConfig))
  = [AnyChain.key (sourceChain transferConfig)].
Proof.
  unfold_wallet. unfold buildTransfer, call, throw.
  case_answers; try discriminate;
    try (destruct (convertDecimals _ _ _); simpl);
    intros H; try discriminate H; reflexivity.
Qed.

Lemma getSourceData_trace
    (w : World.t) (this : XcmWallet.t) (srcAddr : string)
    (srcChain : AnyChain.t) (dstAddr : string) (dstChain : AnyChain.t)
    (asset : Asset.t) (transferConfig : TransferConfig.t)
    (balance feeBalance destinationFee sourceFee : AssetAmount.t) :
  outcome (getTransferConfig this srcChain dstChain asset)
  = Ok transferConfig ->
  outcome (getBalance w this srcAddr transferConfig) = Ok balance ->
  outcome (getFeeBalance w this srcAddr transferConfig) = Ok feeBalance ->
  outcome (getDestinationFee w this transferConfig) = Ok destinationFee ->
  outcome (getSourceFee w this (AssetAmount.amount balance) srcAddr dstAddr
                        destinationFee transferConfig) = Ok sourceFee ->
  trace (getSourceData w this srcAddr srcChain dstAddr dstChain asset)
  = (trace (getBalance w this srcAddr transferConfig)
     ++ trace (getFeeBalance w this srcAddr transferConfig)
     ++ trace (getDestinationFee w this transferConfig)
     ++ [EvConsoleLog balance; EvConsoleLog feeBalance;
         EvConsoleLog destinationFee]
     ++ trace (getSourceFee w this (AssetAmount.amount balance) srcAddr
                            dstAddr destinationFee transferConfig)
     ++ [EvConsoleLog sourceFee])%list.
Proof.
  intros Htc Hb Hfb Hdf Hsf. unfold getSourceData.
  rewrite (bind_ok _ _ _ Htc), (bind_ok _ _ _ Hb), (bind_ok _ _ _ Hfb),
    (bind_ok _ _ _ Hdf).
  unfold console_log. rewrite !bind_call_ok.
  cbn [trace outcome fst snd].
  rewrite (bind_ok _ _ _ Hsf), bind_call_ok.
  reflexivity.
Qed.

(** X20: a complete run of [getSourceData] creates a chain service four
    times, never reusing one: for the source chain of the resolved route
    (balance), for it again (fee balance), for the destination chain
    (destination fee) and for the source chain once more (source fee). *)
Theorem getSourceData_creates_four_services
    (w : World.t) (this : XcmWallet.t) (srcAddr : string)
    (srcChain : AnyChain.t) (dstAddr : string) (dstChain : AnyChain.t)
    (asset : Asset.t) (u : unit) :
  let run := getSourceData w this srcAddr srcChain dstAddr dstChain asset in
  outcome run = Ok u ->
  exists transferConfig,
    IConfigService.build (XcmWallet.configService this) asset srcChain
                         dstChain = Ok transferConfig /\
    serviceCreations (trace run)
    = [AnyChain.key (sourceChain transferConfig);
       AnyChain.key (sourceChain transferConfig);
       AnyChain.key (destinationChain transferConfig);
       AnyChain.key (sourceChain transferConfig)].
Proof.
  intros run Hrun. subst run.
  pose proof Hrun as Hsteps. unfold getSourceData in Hsteps.
  apply bind_outcome_inv in Hsteps as (transferConfig & Htc & Hsteps).
  apply bind_outcome_inv in Hsteps as (balance & Hb & Hsteps).
  apply bind_outcome_inv in Hsteps as (feeBalance & Hfb & Hsteps).
  apply bind_outcome_inv in Hsteps as (destinationFee & Hdf & Hsteps).
  apply bind_outcome_inv in Hsteps as (? & _ & Hsteps).
  apply bind_outcome_inv in Hsteps as (? & _ & Hsteps).
  apply bind_outcome_inv in Hsteps as (? & _ & Hsteps).
  apply bind_outcome_inv in Hsteps as (sourceFee & Hsf & _).
  exists transferConfig. split; [exact Htc|].
  rewrite (getSourceData_trace w this srcAddr srcChain dstAddr dstChain asset
             transferConfig balance feeBalance destinationFee sourceFee)
    by assumption.
  rewrite !serviceCreations_app.
  rewrite (getBalance_serviceCreations _ _ _ _ _ Hb),
    (getFeeBalance_serviceCreations _ _ _ _ _ Hfb),
    (getDestinationFee_serviceCreations _ _ _ _ Hdf),
    (getSourceFee_serviceCreations _ _ _ _ _ _ _ _ Hsf).
  reflexivity.
Qed.

Lemma getSourceData_creates_four_services_witness :
  exists transferConfig,
    IConfigService.build Sample.configService Sample.assetX Sample.chainA
                         Sample.chainB = Ok transferConfig /\
    serviceCreations
      (trace (getSourceData Sample.world Sample.wallet "5Grw" Sample.chainA
                "0xdest" Sample.chainB Sample.assetX))
    = [AnyChain.key (sourceChain transferConfig);
       AnyChain.key (sourceChain transferConfig);
       AnyChain.key (destinationChain transferConfig);
       AnyChain.key (sourceChain transferConfig)].
Proof.
  apply (getSourceData_creates_four_services Sample.world Sample.wallet
           "5Grw" Sample.chainA "0xdest" Sample.chainB Sample.assetX tt).
  reflexivity.
Defined.
